(** * ESP32 ADC sampler with FreeRTOS tasks: a shallow embedding of [src/main.cpp]

    The timer ISR [onTimer] fills a double buffer of ADC readings and notifies
    Task A, which averages a full buffer and publishes the mean under a mutex;
    Task B echoes the serial line input and answers the command [avg].

    The program's functions are embedded as functions on an explicit [State];
    the FreeRTOS and Arduino primitives they call are modelled in the modules
    [FreeRTOS], [IEEE], [Print], [WString] and [OLED] below. *)

From Stdlib Require Import ZArith Lia List Ascii String Bool.
From Stdlib Require Import Floats.SpecFloat DecimalString.
From stdpp Require Import base list list_numbers strings.

Open Scope Z_scope.

(* ===================================================================== *)
(** ** Machine integers *)

Module Int.
(** [int] is a 32-bit two's complement integer. *)
Definition INT_MIN : Z := - 2 ^ 31.
Definition INT_MAX : Z := 2 ^ 31 - 1.
Definition wrap (z : Z) : Z := (z + 2 ^ 31) mod 2 ^ 32 - 2 ^ 31.
Definition in_range (z : Z) : Prop := INT_MIN <= z <= INT_MAX.
(** conversion to [uint32_t] *)
Definition to_uint32 (z : Z) : Z := z mod 2 ^ 32.
End Int.

(* ===================================================================== *)
(** ** Outcomes of a piece of code *)

(** A piece of code either runs to completion, leaves the calling task
    suspended inside a blocking call, or indexes an array outside its
    bounds. *)
Inductive outcome (A : Type) : Type :=
| Done (a : A)
| Blocked
| Fault.
Arguments Done {A} a.
Arguments Blocked {A}.
Arguments Fault {A}.

Global Instance outcome_ret : MRet outcome := fun A a => Done a.
Global Instance outcome_bind : MBind outcome := fun A B f m =>
  match m with
  | Done a => f a
  | Blocked => Blocked
  | Fault => Fault
  end.

(* ===================================================================== *)
(** ** IEEE 754 arithmetic: [double] is binary64, [float] is binary32 *)

Module IEEE.
Definition dprec : Z := 53.
Definition demax : Z := 1024.
Definition fprec : Z := 24.
Definition femax : Z := 128.

(** [(double) n] for an integer [n] *)
Definition double_of_int (n : Z) : spec_float :=
  binary_normalize dprec demax n 0 false.

(** narrowing conversion [double -> float], round to nearest even *)
Definition float_of_double (x : spec_float) : spec_float :=
  match x with
  | S754_finite s m e => binary_round fprec femax s m e
  | _ => x
  end.

(** promotion [float -> double], exact *)
Definition double_of_float (x : spec_float) : spec_float :=
  match x with
  | S754_finite s m e => binary_round dprec demax s m e
  | _ => x
  end.

Definition dadd : spec_float -> spec_float -> spec_float := SFadd dprec demax.
Definition dsub : spec_float -> spec_float -> spec_float := SFsub dprec demax.
Definition dmul : spec_float -> spec_float -> spec_float := SFmul dprec demax.
Definition ddiv : spec_float -> spec_float -> spec_float := SFdiv dprec demax.
Definition dlt : spec_float -> spec_float -> bool := SFltb.
Definition dle : spec_float -> spec_float -> bool := SFleb.

Definition isnan (x : spec_float) : bool :=
  match x with S754_nan => true | _ => false end.
Definition isinf (x : spec_float) : bool :=
  match x with S754_infinity _ => true | _ => false end.

(** conversion to an integer type: truncation towards zero *)
Definition trunc (x : spec_float) : Z :=
  match x with
  | S754_finite s m e => cond_Zopp s (Z.shiftl (Zpos m) e)
  | _ => 0
  end.

Definition zero : spec_float := S754_zero false.
End IEEE.

(* ===================================================================== *)
(** ** Arduino core: [Print], [String], [dtostrf] *)

(** The program prints through the Arduino core for the ESP32. Its functions
    are embedded here from the core's sources ([Print.cpp], [WString.cpp],
    [stdlib_noniso.c]), strings as [string], [double] arithmetic through
    [IEEE]. *)

Module Print.
Import IEEE.

Definition CRLF : string := String "013" (String "010" EmptyString).

(** [Print::print(unsigned long)] and [Print::print(int)], base 10 *)
Definition print_ulong (n : Z) : string :=
  NilZero.string_of_uint (N.to_uint (Z.to_N n)).
Definition print_int (n : Z) : string :=
  NilZero.string_of_int (Z.to_int n).

(** the loop [while (digits-- > 0)] of [Print::printFloat] *)
Fixpoint print_fraction (digits : nat) (remainder : spec_float) : string :=
  match digits with
  | O => EmptyString
  | S digits' =>
      let remainder := dmul remainder (double_of_int 10) in
      let toPrint := Int.wrap (trunc remainder) in
      print_int toPrint
        +:+ print_fraction digits' (dsub remainder (double_of_int toPrint))
  end.

(** [Print::printFloat(double number, uint8_t digits)] *)
Definition printFloat (number : spec_float) (digits : nat) : string :=
  if isnan number then "nan"
  else if isinf number then "inf"
  else if dlt (double_of_int 4294967040) number then "ovf"
  else if dlt number (double_of_int (-4294967040)) then "ovf"
  else
    let negative := dlt number zero in
    let number := if negative then SFopp number else number in
    let rounding :=
      Nat.iter digits (fun r => ddiv r (double_of_int 10))
               (ddiv (double_of_int 1) (double_of_int 2)) in
    let number := dadd number rounding in
    let int_part := Int.to_uint32 (trunc number) in
    let remainder := dsub number (double_of_int int_part) in
    (if negative then "-" else "")
      +:+ print_ulong int_part
      +:+ (if (0 <? digits)%nat then "." else "")
      +:+ print_fraction digits remainder.

(** [Print::println(x)] is [print(x)] followed by ["\r\n"]. *)
Definition println (text : string) : string := text +:+ CRLF.

(** [Print::print(double)] and [Print::println(double)] print two digits
    after the decimal point unless told otherwise. *)
Definition default_digits : nat := 2.
End Print.

Module WString.
Import IEEE.

(** C's [isspace] in the default locale *)
Definition isspace (c : ascii) : bool :=
  let n := nat_of_ascii c in
  ((n =? 32) || ((9 <=? n) && (n <=? 13)))%nat.

Fixpoint skip_space (s : string) : string :=
  match s with
  | String c rest => if isspace c then skip_space rest else s
  | EmptyString => EmptyString
  end.

(** [String::trim()]: drops the leading and the trailing white space *)
Definition trim (s : string) : string :=
  String.rev (skip_space (String.rev (skip_space s))).

(** [c_str()] read as a C string: the characters before the first NUL *)
Fixpoint c_str (s : string) : string :=
  match s with
  | String c rest =>
      if Ascii.eqb c "000" then EmptyString else String c (c_str rest)
  | EmptyString => EmptyString
  end.

(** [String::equals(const char *cstr)], which [operator==] calls: an empty
    [String] equals the empty C string, any other one is compared with
    [strcmp], which stops at the first NUL *)
Definition equals (s cstr : string) : bool :=
  if (String.length s =? 0)%nat
  then String.eqb (c_str cstr) EmptyString
  else String.eqb (c_str s) (c_str cstr).

(** the loop [while (number >= 10.0 * tenpow)] of [dtostrf]; a finite
    double is below 10^309, which bounds the number of rounds *)
Fixpoint scale (fuel digitcount : nat) (number tenpow : spec_float)
  : spec_float * nat :=
  match fuel with
  | O => (tenpow, digitcount)
  | S fuel' =>
      if dle (dmul (double_of_int 10) tenpow) number
      then scale fuel' (S digitcount) number (dmul tenpow (double_of_int 10))
      else (tenpow, digitcount)
  end.

(** the loop [while (digitcount-- > 0)] of [dtostrf] *)
Fixpoint digits_out (digitcount prec : nat) (number : spec_float) : string :=
  match digitcount with
  | O => EmptyString
  | S digitcount' =>
      let digit := Int.wrap (trunc number) in
      let digit := if 9 <? digit then 9 else digit in
      String (ascii_of_N (Z.to_N (Z.lor 48 digit)))
        ((if (digitcount' =? prec)%nat && (0 <? prec)%nat then "." else "")
           +:+ digits_out digitcount' prec
                 (dmul (dsub number (double_of_int digit)) (double_of_int 10)))
  end.

Fixpoint spaces (n : nat) : string :=
  match n with
  | O => EmptyString
  | S n' => String " " (spaces n')
  end.

(** [dtostrf(double number, signed int width, unsigned int prec, char *s)] *)
Definition dtostrf (number : spec_float) (width : Z) (prec : nat) : string :=
  if isnan number then "nan"
  else if isinf number then "inf"
  else
    let fillme := if (0 <? prec)%nat then width - (Z.of_nat prec + 1) else width in
    let negative := dlt number zero in
    let fillme := if negative then fillme - 1 else fillme in
    let number := if negative then SFopp number else number in
    let rounding :=
      ddiv (double_of_int 1)
           (Nat.iter prec (fun r => dmul r (double_of_int 10)) (double_of_int 2)) in
    let number := dadd number rounding in
    let '(tenpow, digitcount) := scale 400 1 number (double_of_int 1) in
    let number := ddiv number tenpow in
    let fillme := fillme - Z.of_nat digitcount in
    spaces (Z.to_nat fillme)
      +:+ (if negative then "-" else "")
      +:+ digits_out (digitcount + prec) prec number.

(** [String::String(float value, unsigned int decimalPlaces = 2)] *)
Definition of_float (value : spec_float) (decimalPlaces : nat) : string :=
  dtostrf (double_of_float value) (Z.of_nat decimalPlaces + 2) decimalPlaces.
End WString.

(* ===================================================================== *)
(** ** FreeRTOS: direct-to-task notifications and mutexes *)

(** The kernel calls of the program, as functions on the kernel object they
    act on: the notification of the notified task, the holder of a mutex. *)

Module FreeRTOS.
(** *** Task notifications *)

(** A task's notification: a 32-bit value and the pending flag
    ([taskNOTIFICATION_RECEIVED]). *)
Record Notification : Type := mkNotification {
  ulNotifiedValue : Z;
  pending : bool
}.

Inductive eNotifyAction : Type :=
| eNoAction
| eSetBits
| eIncrement
| eSetValueWithOverwrite
| eSetValueWithoutOverwrite.

(** a fresh task: value 0, nothing pending *)
Definition notification_init : Notification := mkNotification 0 false.

(** [xTaskNotifyFromISR(task, ulValue, eAction, &woken)], on the notified
    task's notification. The value is unchanged when the action is
    [eSetValueWithoutOverwrite] and a notification is pending; in every
    other case the notification becomes pending. *)
Definition xTaskNotifyFromISR (ulValue : Z) (eAction : eNotifyAction)
           (n : Notification) : Notification :=
  match eAction with
  | eNoAction => mkNotification (ulNotifiedValue n) true
  | eSetBits => mkNotification (Z.lor (ulNotifiedValue n) ulValue) true
  | eIncrement => mkNotification (Int.to_uint32 (ulNotifiedValue n + 1)) true
  | eSetValueWithOverwrite => mkNotification ulValue true
  | eSetValueWithoutOverwrite =>
      if pending n then n else mkNotification ulValue true
  end.

(** [xTaskNotifyWait(ulBitsToClearOnEntry, ulBitsToClearOnExit, &value,
    portMAX_DELAY)]: [None] while nothing is pending (the task stays
    suspended), otherwise the value and the notification with the pending
    flag consumed. *)
Definition xTaskNotifyWait (ulBitsToClearOnEntry ulBitsToClearOnExit : Z)
           (n : Notification) : option (Z * Notification) :=
  if pending n
  then Some (ulNotifiedValue n,
             mkNotification
               (Z.land (ulNotifiedValue n) (Z.lnot ulBitsToClearOnExit)) false)
  else None.

(** *** Mutexes *)

Inductive Task : Type := taskA | taskB.

(** A mutex is free or held by a task. *)
Definition Semaphore : Type := option Task.

(** [xSemaphoreCreateMutex()] *)
Definition xSemaphoreCreateMutex : Semaphore := None.

(** [xSemaphoreTake(m, ticks)] called by [who]: the mutex once taken, or
    [None] when it stays held elsewhere for the whole wait. (Where a wait
    is split into steps, [None] is one attempt that finds the mutex held:
    the caller then waits on, see [TaskB_step] and [TaskB_timeout].) *)
Definition xSemaphoreTake (m : Semaphore) (who : Task) : option Semaphore :=
  match m with
  | None => Some (Some who)
  | Some _ => None
  end.

(** [xSemaphoreGive(m)] *)
Definition xSemaphoreGive (m : Semaphore) : Semaphore := None.
End FreeRTOS.

(* ===================================================================== *)
(** ** The SSD1306 display *)

Module OLED.
(** The text drawn into the frame buffer since the last [clearDisplay], the
    text cursor and settings, and the text on the panel (the frame buffer
    as of the last [display()]). *)
Record t : Type := mk {
  canvas : string;
  cursor : Z * Z;
  textSize : Z;
  textColor : Z;
  screen : string
}.

Definition SSD1306_WHITE : Z := 1.

Definition clearDisplay (d : t) : t :=
  mk EmptyString (cursor d) (textSize d) (textColor d) (screen d).
Definition setCursor (x y : Z) (d : t) : t :=
  mk (canvas d) (x, y) (textSize d) (textColor d) (screen d).
Definition setTextSize (n : Z) (d : t) : t :=
  mk (canvas d) (cursor d) n (textColor d) (screen d).
Definition setTextColor (c : Z) (d : t) : t :=
  mk (canvas d) (cursor d) (textSize d) c (screen d).
(** [display.println(text)], through [Print] *)
Definition println (text : string) (d : t) : t :=
  mk (canvas d +:+ Print.println text) (cursor d) (textSize d) (textColor d)
     (screen d).
(** [display.display()] pushes the frame buffer to the panel. *)
Definition display (d : t) : t :=
  mk (canvas d) (cursor d) (textSize d) (textColor d) (canvas d).

(** the display as [setup()] leaves it: the banner on the panel, the frame
    buffer cleared *)
Definition after_setup : t :=
  clearDisplay
    (display
       (println "OLED Ready"
          (setCursor 0 0
             (setTextColor SSD1306_WHITE
                (setTextSize 1
                   (clearDisplay (mk EmptyString (0, 0) 1 SSD1306_WHITE EmptyString))))))).
End OLED.

(* ===================================================================== *)
(** ** The program state *)

Import FreeRTOS.

(** Where Task A stands in its loop body. *)
Inductive TaskA_pc : Type :=
| A_wait                              (* in [xTaskNotifyWait] *)
| A_take (average : spec_float)       (* in [xSemaphoreTake(avgMutex, portMAX_DELAY)] *)
| A_store (average : spec_float).     (* holding [avgMutex] *)

Record State : Type := mkState {
  samples : list (list Z);            (* int samples[2][10] *)
  writeIndex : Z;                     (* volatile int *)
  samplePos : Z;                      (* volatile int *)
  globalAverage : spec_float;         (* float *)
  avgMutex : Semaphore;
  taskA_notification : Notification;  (* the notification of taskAHandle *)
  taskA_pc : TaskA_pc;
  inputBuffer : string;               (* Task B's local String *)
  Serial : string;                    (* everything written to Serial *)
  oled : OLED.t                       (* Adafruit_SSD1306 display *)
}.

Definition set_samples (v : list (list Z)) (s : State) : State :=
  mkState v (writeIndex s) (samplePos s) (globalAverage s) (avgMutex s)
          (taskA_notification s) (taskA_pc s) (inputBuffer s) (Serial s) (oled s).
Definition set_writeIndex (v : Z) (s : State) : State :=
  mkState (samples s) v (samplePos s) (globalAverage s) (avgMutex s)
          (taskA_notification s) (taskA_pc s) (inputBuffer s) (Serial s) (oled s).
Definition set_samplePos (v : Z) (s : State) : State :=
  mkState (samples s) (writeIndex s) v (globalAverage s) (avgMutex s)
          (taskA_notification s) (taskA_pc s) (inputBuffer s) (Serial s) (oled s).
Definition set_globalAverage (v : spec_float) (s : State) : State :=
  mkState (samples s) (writeIndex s) (samplePos s) v (avgMutex s)
          (taskA_notification s) (taskA_pc s) (inputBuffer s) (Serial s) (oled s).
Definition set_avgMutex (v : Semaphore) (s : State) : State :=
  mkState (samples s) (writeIndex s) (samplePos s) (globalAverage s) v
          (taskA_notification s) (taskA_pc s) (inputBuffer s) (Serial s) (oled s).
Definition set_taskA_notification (v : Notification) (s : State) : State :=
  mkState (samples s) (writeIndex s) (samplePos s) (globalAverage s) (avgMutex s)
          v (taskA_pc s) (inputBuffer s) (Serial s) (oled s).
Definition set_taskA_pc (v : TaskA_pc) (s : State) : State :=
  mkState (samples s) (writeIndex s) (samplePos s) (globalAverage s) (avgMutex s)
          (taskA_notification s) v (inputBuffer s) (Serial s) (oled s).
Definition set_inputBuffer (v : string) (s : State) : State :=
  mkState (samples s) (writeIndex s) (samplePos s) (globalAverage s) (avgMutex s)
          (taskA_notification s) (taskA_pc s) v (Serial s) (oled s).
Definition set_Serial (v : string) (s : State) : State :=
  mkState (samples s) (writeIndex s) (samplePos s) (globalAverage s) (avgMutex s)
          (taskA_notification s) (taskA_pc s) (inputBuffer s) v (oled s).
Definition set_oled (v : OLED.t) (s : State) : State :=
  mkState (samples s) (writeIndex s) (samplePos s) (globalAverage s) (avgMutex s)
          (taskA_notification s) (taskA_pc s) (inputBuffer s) (Serial s) v.

(** [Serial.print(text)] and [Serial.println(text)] *)
Definition Serial_print (text : string) (s : State) : State :=
  set_Serial (Serial s +:+ text) s.
Definition Serial_println (text : string) (s : State) : State :=
  Serial_print (Print.println text) s.

(** The initial state: the globals as initialised, the mutex as
    [xSemaphoreCreateMutex()] returns it, no notification pending, both
    tasks at the top of their loops, the display as [setup()] leaves it. *)
Definition init : State :=
  mkState (replicate 2 (replicate 10 0)) 0 0 IEEE.zero
          xSemaphoreCreateMutex notification_init A_wait
          EmptyString EmptyString OLED.after_setup.

(* ===================================================================== *)
(** ** Arrays *)

(** [a[i][j]] and [a[i][j] = v]; [None] outside the bounds. *)
Definition array2_get (a : list (list Z)) (i j : Z) : option Z :=
  if (0 <=? i) && (0 <=? j)
  then row ← a !! Z.to_nat i; row !! Z.to_nat j
  else None.

Definition array2_set (a : list (list Z)) (i j v : Z) : option (list (list Z)) :=
  if (0 <=? i) && (0 <=? j)
  then row ← a !! Z.to_nat i;
       _ ← row !! Z.to_nat j;
       Some (<[Z.to_nat i := <[Z.to_nat j := v]> row]> a)
  else None.

Definition of_option {A : Type} (o : option A) : outcome A :=
  match o with
  | Some a => Done a
  | None => Fault
  end.

(* ===================================================================== *)
(** ** The timer ISR *)

(** [onTimer()], with [adcValue] the reading [analogRead(ADC_PIN)] returns.
    Next to the new state the result tells which buffer, if any, was passed
    to [xTaskNotifyFromISR]. The closing [portYIELD_FROM_ISR()] only asks the
    scheduler to switch to Task A at once; which task runs next is an
    [event] of the runs below. *)
Definition onTimer (adcValue : Z) (s : State) : outcome (State * option Z) :=
  samples' ← of_option (array2_set (samples s) (writeIndex s) (samplePos s) adcValue);
  let s := set_samples samples' s in
  let s := set_samplePos (Int.wrap (samplePos s + 1)) s in
  if 10 <=? samplePos s then
    let bufferJustFilled := writeIndex s in
    let s := set_writeIndex (Int.wrap (1 - writeIndex s)) s in
    let s := set_samplePos 0 s in
    let s := set_taskA_notification
               (xTaskNotifyFromISR (Int.to_uint32 bufferJustFilled)
                                   eSetValueWithOverwrite
                                   (taskA_notification s)) s in
    Done (s, Some bufferJustFilled)
  else Done (s, None).

(* ===================================================================== *)
(** ** Task A *)

(** The loop [for (int i = 0; i < 10; i++) sum += samples[bufferIndex][i]]. *)
Definition TaskA_sum (a : list (list Z)) (bufferIndex : Z) : outcome Z :=
  foldl (fun acc i =>
           sum ← acc;
           x ← of_option (array2_get a bufferIndex i);
           Done (Int.wrap (sum + x)))
        (Done 0) (seqZ 0 10).

(** [float average = sum / 10.0;] *)
Definition TaskA_average (sum : Z) : spec_float :=
  IEEE.float_of_double (IEEE.ddiv (IEEE.double_of_int sum) (IEEE.double_of_int 10)).

(** One scheduling step of Task A: from one suspension point of its loop
    body to the next. *)
Definition TaskA_step (s : State) : outcome State :=
  match taskA_pc s with
  | A_wait =>
      match xTaskNotifyWait 0 0 (taskA_notification s) with
      | None => Blocked
      | Some (bufferIndex, n) =>
          sum ← TaskA_sum (samples s) bufferIndex;
          Done (set_taskA_pc (A_take (TaskA_average sum))
                  (set_taskA_notification n s))
      end
  | A_take average =>
      match xSemaphoreTake (avgMutex s) taskA with
      | None => Blocked
      | Some m => Done (set_taskA_pc (A_store average) (set_avgMutex m s))
      end
  | A_store average =>
      let s := set_globalAverage average s in
      let s := set_avgMutex (xSemaphoreGive (avgMutex s)) s in
      Done (set_taskA_pc A_wait s)
  end.

(* ===================================================================== *)
(** ** Task B *)

(** [updateOLED(displayString)] *)
Definition updateOLED (displayString : string) (s : State) : State :=
  set_oled
    (OLED.display
       (OLED.println displayString
          (OLED.setTextColor OLED.SSD1306_WHITE
             (OLED.setTextSize 1
                (OLED.setCursor 0 0
                   (OLED.clearDisplay (oled s))))))) s.

Definition NL : ascii := "010"%char.

Definition avg_error : string := "ERROR! >_<...Couldn't access average".

(** One round of the loop [while (Serial.available())], with [c] the
    character [Serial.read()] returns. *)
Definition TaskB_char (c : ascii) (s : State) : State :=
  let s := Serial_print (String c EmptyString) s in
  if Ascii.eqb c NL then
    let s := set_inputBuffer (WString.trim (inputBuffer s)) s in
    let s :=
      if WString.equals (inputBuffer s) "avg" then
        match xSemaphoreTake (avgMutex s) taskB with
        | Some m =>
            let s := set_avgMutex m s in
            let s := Serial_print "Average: " s in
            let avgCopy := globalAverage s in
            let s := Serial_println
                       (Print.printFloat (IEEE.double_of_float avgCopy)
                                         Print.default_digits) s in
            let s := set_avgMutex (xSemaphoreGive (avgMutex s)) s in
            let avgStr := "Average: " +:+ WString.of_float avgCopy 2 in
            updateOLED avgStr s
        | None => Serial_println avg_error s
        end
      else
        let s := Serial_println (inputBuffer s) s in
        updateOLED (inputBuffer s) s in
    set_inputBuffer EmptyString s
  else set_inputBuffer (inputBuffer s +:+ String c EmptyString) s.

(** Task B consuming the characters of [text] one after the other. *)
Fixpoint TaskB_input (text : string) (s : State) : State :=
  match text with
  | EmptyString => s
  | String c rest => TaskB_input rest (TaskB_char c s)
  end.

(** A text without a newline character. *)
Fixpoint no_NL (text : string) : bool :=
  match text with
  | EmptyString => true
  | String c rest => negb (Ascii.eqb c NL) && no_NL rest
  end.


(* ===================================================================== *)
(** ** Runs of the system *)

(** What the scheduler and the hardware do next: a timer interrupt with its
    ADC reading, Task B consuming an input character (and running that
    round of its loop to the end, without a switch to Task A inside it), or
    Task A running to its next suspension point. The section "Task B step
    by step" below has the runs in which a round of Task B is split. *)
Inductive event : Type :=
| Tick (adcValue : Z)
| Key (c : ascii)
| RunA.

(** What a step shows to the other side. *)
Inductive label : Type :=
| Handoff (slot : Z)               (* the ISR notified Task A of a full buffer *)
| Publish (average : spec_float)   (* Task A stored a new [globalAverage] *)
| Quiet.

Definition step (e : event) (s : State) : outcome (State * label) :=
  match e with
  | Tick adcValue =>
      '(s', sent) ← onTimer adcValue s;
      Done (s', match sent with Some slot => Handoff slot | None => Quiet end)
  | Key c => Done (TaskB_char c s, Quiet)
  | RunA =>
      match TaskA_step s with
      | Done s' =>
          Done (s', match taskA_pc s with
                    | A_store average => Publish average
                    | _ => Quiet
                    end)
      | Blocked => Done (s, Quiet)    (* a suspended task does not run *)
      | Fault => Fault
      end
  end.

Fixpoint run (es : list event) (s : State) : outcome (State * list label) :=
  match es with
  | [] => Done (s, [])
  | e :: es' =>
      '(s1, l) ← step e s;
      '(s2, ls) ← run es' s1;
      Done (s2, l :: ls)
  end.

(** The slot ids handed off, and the means published, in a run. *)
Definition handoffs (ls : list label) : list Z :=
  omap (fun l => match l with Handoff slot => Some slot | _ => None end) ls.
Definition publishes (ls : list label) : list spec_float :=
  omap (fun l => match l with Publish a => Some a | _ => None end) ls.

Definition is_RunA (e : event) : bool :=
  match e with RunA => true | _ => false end.

(* ===================================================================== *)
(** ** Well-formed states *)

(** The double buffer is well formed: [writeIndex] is 0 or 1, [samplePos]
    is below 10 and [samples] has its declared shape, 2 rows of 10. *)
Definition buffer_ok (s : State) : bool :=
  ((writeIndex s =? 0) || (writeIndex s =? 1))
  && ((0 <=? samplePos s) && (samplePos s <? 10))
  && ((length (samples s) =? 2)%nat
      && forallb (fun row => (length row =? 10)%nat) (samples s)).

(** Moreover the value of Task A's notification is a slot id. *)
Definition system_ok (s : State) : bool :=
  buffer_ok s
  && ((ulNotifiedValue (taskA_notification s) =? 0)
      || (ulNotifiedValue (taskA_notification s) =? 1)).

(** Slot ids that alternate, from [start] on. *)
Fixpoint alternating (start : Z) (n : nat) : list Z :=
  match n with
  | O => []
  | S n' => start :: alternating (1 - start) n'
  end.

(** The sum of a row as the loop of Task A computes it, and as an integer. *)
Definition sum_int (row : list Z) : Z :=
  foldl (fun acc x => Int.wrap (acc + x)) 0 row.
Definition sum_Z (row : list Z) : Z := foldr Z.add 0 row.

(** The arithmetic mean of the readings: their integer sum divided by 10
    in floating point (a [double] division, stored in a [float]). *)
Definition arithmetic_mean (readings : list Z) : spec_float :=
  IEEE.float_of_double
    (IEEE.ddiv (IEEE.double_of_int (sum_Z readings)) (IEEE.double_of_int 10)).

(** A reading small enough for ten of them to sum up within [int]. *)
Definition reading_ok (r : Z) : bool := Z.abs r <=? Int.INT_MAX / 10.

(** [samples] has its declared shape. *)
Definition shape (a : list (list Z)) : Prop :=
  length a = 2%nat /\ Forall (fun row => length row = 10%nat) a.

(** The state [onTimer] leaves when the buffer is not yet full, and when it
    is. *)
Definition appended (adcValue : Z) (row : list Z) (s : State) : State :=
  set_samplePos (samplePos s + 1)
    (set_samples
       (<[Z.to_nat (writeIndex s) := <[Z.to_nat (samplePos s) := adcValue]> row]>
          (samples s)) s).

Definition flipped (adcValue : Z) (row : list Z) (s : State) : State :=
  set_taskA_notification (mkNotification (writeIndex s) true)
    (set_samplePos 0
       (set_writeIndex (1 - writeIndex s)
          (set_samples
             (<[Z.to_nat (writeIndex s) := <[Z.to_nat (samplePos s) := adcValue]> row]>
                (samples s)) s))).

(** Task A does not run during [es]. *)
Definition no_RunA (es : list event) : bool :=
  forallb (fun e => negb (is_RunA e)) es.

(** The state after ten readings into a fresh buffer. *)
Definition filled (readings : list Z) (s : State) : State :=
  set_taskA_notification (mkNotification (writeIndex s) true)
    (set_samplePos 0
       (set_writeIndex (1 - writeIndex s)
          (set_samples (<[Z.to_nat (writeIndex s) := readings]> (samples s)) s))).

(** Task A holds the mutex while Task B dispatches [avg]. *)
Definition held_by_taskA : State :=
  set_avgMutex (Some taskA) (set_inputBuffer "avg" init).

(** The state in which [globalAverage] holds 512.3 (as a [float]: the mean
    of readings that sum up to 5123) and [avg] has been typed. *)
Definition holding_512_3 : State :=
  set_inputBuffer "avg" (set_globalAverage (TaskA_average 5123) init).

(** A session: ten readings, Task A's loop body, the command [avg]. *)
Definition session : list event :=
  map Tick [512; 513; 512; 512; 512; 512; 513; 512; 512; 513]
    ++ [RunA; RunA; RunA]
    ++ [Key "a"; Key "v"; Key "g"; Key NL]%char.

(** The timer interrupts among the events. *)
Definition is_Tick (e : event) : bool :=
  match e with Tick _ => true | _ => false end.
Definition ticks (es : list event) : nat := length (List.filter is_Tick es).

(** The characters Task B consumes among the events. *)
Definition is_Key (e : event) : bool :=
  match e with Key _ => true | _ => false end.

Definition is_newline (e : event) : bool :=
  match e with Key c => Ascii.eqb c NL | _ => false end.

(** The means Task A still owes: one for a pending notification, one for a
    buffer it is working on. *)
Definition owed (s : State) : nat :=
  (if pending (taskA_notification s) then 1 else 0)
  + (match taskA_pc s with A_wait => 0 | _ => 1 end).

(** A text of white space only. *)
Fixpoint all_space (t : string) : bool :=
  match t with
  | EmptyString => true
  | String c rest => WString.isspace c && all_space rest
  end.

(* ===================================================================== *)
(** ** Task B step by step *)

(** In the runs above a [Key] event is a whole round of Task B's loop, run
    without interruption. Both tasks have the same priority on the same
    core, so that the scheduler can switch between them anywhere. The runs
    below split a round of Task B where it touches what it shares with
    Task A: at the take of [avgMutex], at the copy of [globalAverage] and
    at the give. What lies between two such points ([Serial], the display
    and the input buffer) is written by Task B alone. *)
Inductive TaskB_pc : Type :=
| B_read                          (* at [Serial.available()] *)
| B_take                          (* in [xSemaphoreTake(avgMutex, 50 ms)] *)
| B_copy                          (* holding [avgMutex], before the copy *)
| B_give (avgCopy : spec_float)   (* holding [avgMutex], before the give *)
| B_show (avgCopy : spec_float).  (* after the give, before [updateOLED] *)

Record System : Type := mkSystem {
  sys : State;
  taskB_pc : TaskB_pc
}.

(** Task B consumes [c]: the round up to the take when the line is the
    command, the whole round otherwise. *)
Definition TaskB_read (c : ascii) (s : State) : State * TaskB_pc :=
  let s := Serial_print (String c EmptyString) s in
  if Ascii.eqb c NL then
    let s := set_inputBuffer (WString.trim (inputBuffer s)) s in
    if WString.equals (inputBuffer s) "avg" then (s, B_take)
    else
      let s := Serial_println (inputBuffer s) s in
      let s := updateOLED (inputBuffer s) s in
      (set_inputBuffer EmptyString s, B_read)
  else (set_inputBuffer (inputBuffer s +:+ String c EmptyString) s, B_read).

(** Task B runs on to the next such point; [Blocked] while it waits for
    input or for the mutex. *)
Definition TaskB_step (t : System) : outcome System :=
  let s := sys t in
  match taskB_pc t with
  | B_read => Blocked
  | B_take =>
      match xSemaphoreTake (avgMutex s) taskB with
      | Some m => Done (mkSystem (set_avgMutex m s) B_copy)
      | None => Blocked
      end
  | B_copy =>
      let s := Serial_print "Average: " s in
      let avgCopy := globalAverage s in
      let s := Serial_println
                 (Print.printFloat (IEEE.double_of_float avgCopy)
                                   Print.default_digits) s in
      Done (mkSystem s (B_give avgCopy))
  | B_give avgCopy =>
      Done (mkSystem (set_avgMutex (xSemaphoreGive (avgMutex s)) s)
                     (B_show avgCopy))
  | B_show avgCopy =>
      let avgStr := "Average: " +:+ WString.of_float avgCopy 2 in
      let s := updateOLED avgStr s in
      Done (mkSystem (set_inputBuffer EmptyString s) B_read)
  end.

(** The 50 ms of the take run out: it returns [pdFALSE], which it does only
    with the mutex still held by another task. *)
Definition TaskB_timeout (t : System) : outcome System :=
  match taskB_pc t, xSemaphoreTake (avgMutex (sys t)) taskB with
  | B_take, None =>
      Done (mkSystem
              (set_inputBuffer EmptyString (Serial_println avg_error (sys t)))
              B_read)
  | _, _ => Blocked
  end.

(** What happens next: a timer interrupt, Task A or Task B running to its
    next point, Task B consuming a character, or Task B's wait for the
    mutex running out. *)
Inductive fine_event : Type :=
| FTick (adcValue : Z)
| FRunA
| FKey (c : ascii)
| FRunB
| FTimeout.

(** A step that is not enabled (the task is suspended, or Task B is not at
    its read) leaves the system as it is. *)
Definition fine_step (e : fine_event) (t : System) : outcome System :=
  match e with
  | FTick adcValue =>
      '(s', _) ← onTimer adcValue (sys t);
      Done (mkSystem s' (taskB_pc t))
  | FRunA =>
      match TaskA_step (sys t) with
      | Done s' => Done (mkSystem s' (taskB_pc t))
      | Blocked => Done t
      | Fault => Fault
      end
  | FKey c =>
      match taskB_pc t with
      | B_read => let '(s', pc) := TaskB_read c (sys t) in Done (mkSystem s' pc)
      | _ => Done t
      end
  | FRunB =>
      match TaskB_step t with
      | Done t' => Done t'
      | _ => Done t
      end
  | FTimeout =>
      match TaskB_timeout t with
      | Done t' => Done t'
      | _ => Done t
      end
  end.

Fixpoint fine_run (es : list fine_event) (t : System) : outcome System :=
  match es with
  | [] => Done t
  | e :: es' => t1 ← fine_step e t; fine_run es' t1
  end.

Definition fine_init : System := mkSystem init B_read.


(** [avgMutex] is held by Task A exactly between its take and its give, by
    Task B exactly between its take and its give, and free otherwise. *)
Definition fine_mutex_ok (t : System) : bool :=
  match avgMutex (sys t), taskA_pc (sys t), taskB_pc t with
  | None, (A_wait | A_take _), (B_read | B_take | B_show _) => true
  | Some taskA, A_store _, (B_read | B_take | B_show _) => true
  | Some taskB, (A_wait | A_take _), (B_copy | B_give _) => true
  | _, _, _ => false
  end.

(** Task A holds the mutex and Task B waits for it, after ten readings, two
    steps of Task A and the command. *)
Definition taskA_storing : State :=
  set_taskA_pc (A_store (TaskA_average 70))
    (set_avgMutex (Some taskA)
       (set_taskA_notification (mkNotification 0 false)
          (filled (replicate 10 7) init))).
Definition taskB_waiting : System :=
  mkSystem
    (set_inputBuffer "avg"
       (set_Serial (String.append "avg" (String NL "")) taskA_storing))
    B_take.
Definition to_taskB_waiting : list fine_event :=
  map FTick (replicate 10 7)
    ++ [FRunA; FRunA; FKey "a"; FKey "v"; FKey "g"; FKey NL]%char.

(** Task B holds the mutex and Task A waits for it, after the command, a
    step of Task B, ten readings and two steps of Task A. *)
Definition taskB_holding : System :=
  mkSystem
    (set_taskA_pc (A_take (TaskA_average 70))
       (set_taskA_notification (mkNotification 0 false)
          (filled (replicate 10 7)
             (set_avgMutex (Some taskB)
                (set_inputBuffer "avg"
                   (set_Serial (String.append "avg" (String NL "")) init))))))
    B_copy.
Definition to_taskB_holding : list fine_event :=
  [FKey "a"; FKey "v"; FKey "g"; FKey NL; FRunB]%char
    ++ map FTick (replicate 10 7) ++ [FRunA; FRunA].

(* ===================================================================== *)
(** * Properties *)

Arguments Print.printFloat : simpl never.
Arguments WString.of_float : simpl never.
Arguments WString.trim : simpl never.
Arguments Int.wrap : simpl never.
Arguments Int.to_uint32 : simpl never.
Arguments TaskA_sum : simpl never.
Arguments TaskA_average : simpl never.
Arguments arithmetic_mean : simpl never.

(** Evaluates the setters of the state, innermost first. *)
Ltac eval_state :=
  cbv [set_samples set_writeIndex set_samplePos set_globalAverage set_avgMutex
       set_taskA_notification set_taskA_pc set_inputBuffer set_Serial set_oled
       Serial_print Serial_println updateOLED
       samples writeIndex samplePos globalAverage avgMutex taskA_notification
       taskA_pc inputBuffer Serial oled
       OLED.display OLED.println OLED.setTextColor OLED.setTextSize
       OLED.setCursor OLED.clearDisplay OLED.canvas OLED.cursor OLED.textSize
       OLED.textColor OLED.screen xSemaphoreGive].

(** ** Integers and arrays *)

Lemma wrap_in_range (z : Z) : Int.in_range z -> Int.wrap z = z.
Proof.
  unfold Int.in_range, Int.INT_MIN, Int.INT_MAX, Int.wrap. intros Hz.
  rewrite Z.mod_small; lia.
Qed.

Lemma to_uint32_small (z : Z) : 0 <= z < 2 ^ 32 -> Int.to_uint32 z = z.
Proof. intros Hz. unfold Int.to_uint32. apply Z.mod_small; lia. Qed.

Lemma buffer_ok_spec (s : State) :
  buffer_ok s = true <->
  (writeIndex s = 0 \/ writeIndex s = 1) /\ 0 <= samplePos s < 10 /\ shape (samples s).
Proof.
  unfold buffer_ok, shape.
  rewrite !andb_true_iff, orb_true_iff, !Z.eqb_eq, Z.leb_le, Z.ltb_lt,
    Nat.eqb_eq, forallb_forall, Forall_forall.
  setoid_rewrite Nat.eqb_eq. setoid_rewrite <- list_elem_of_In. tauto.
Qed.

Lemma system_ok_spec (s : State) :
  system_ok s = true <->
  buffer_ok s = true /\
  (ulNotifiedValue (taskA_notification s) = 0
   \/ ulNotifiedValue (taskA_notification s) = 1).
Proof.
  unfold system_ok. rewrite andb_true_iff, orb_true_iff, !Z.eqb_eq. tauto.
Qed.

Lemma shape_row (a : list (list Z)) (i : Z) :
  shape a -> 0 <= i < 2 ->
  exists row, a !! Z.to_nat i = Some row /\ length row = 10%nat.
Proof.
  intros [Hlen Hrows] Hi.
  destruct (lookup_lt_is_Some_2 a (Z.to_nat i)) as [row Hrow]; [lia|].
  exists row. split; [done|].
  rewrite Forall_lookup in Hrows. by eapply Hrows.
Qed.

Lemma shape_insert (a : list (list Z)) (i : nat) (row : list Z) :
  shape a -> length row = 10%nat -> shape (<[i := row]> a).
Proof.
  intros [Hlen Hrows] Hrow. split.
  - by rewrite length_insert.
  - destruct (decide (i < length a)%nat) as [Hi|Hi].
    + by apply Forall_insert.
    + rewrite list_insert_ge by lia. done.
Qed.

Lemma array2_set_in_bounds (a : list (list Z)) (i j v : Z) :
  shape a -> 0 <= i < 2 -> 0 <= j < 10 ->
  exists row, a !! Z.to_nat i = Some row /\ length row = 10%nat /\
    array2_set a i j v = Some (<[Z.to_nat i := <[Z.to_nat j := v]> row]> a).
Proof.
  intros Ha Hi Hj. destruct (shape_row a i Ha Hi) as (row & Hrow & Hlen).
  exists row. split; [done|]. split; [done|].
  unfold array2_set.
  replace (0 <=? i) with true by (symmetry; apply Z.leb_le; lia).
  replace (0 <=? j) with true by (symmetry; apply Z.leb_le; lia).
  simpl. rewrite Hrow. simpl.
  destruct (lookup_lt_is_Some_2 row (Z.to_nat j)) as [x Hx]; [lia|].
  by rewrite Hx.
Qed.

Lemma array2_get_insert (a : list (list Z)) (row : list Z) (i j v : Z) :
  0 <= i -> 0 <= j -> (Z.to_nat i < length a)%nat -> (Z.to_nat j < length row)%nat ->
  array2_get (<[Z.to_nat i := <[Z.to_nat j := v]> row]> a) i j = Some v.
Proof.
  intros Hi Hj Hia Hjr. unfold array2_get.
  replace (0 <=? i) with true by (symmetry; apply Z.leb_le; lia).
  replace (0 <=? j) with true by (symmetry; apply Z.leb_le; lia).
  simpl. rewrite list_lookup_insert_eq by done. simpl.
  by rewrite list_lookup_insert_eq.
Qed.

Lemma array2_get_insert_ne (a : list (list Z)) (row : list Z) (i j i' j' v : Z) :
  a !! Z.to_nat i = Some row -> 0 <= i -> 0 <= j ->
  (i', j') <> (i, j) ->
  array2_get (<[Z.to_nat i := <[Z.to_nat j := v]> row]> a) i' j' = array2_get a i' j'.
Proof.
  intros Hrow Hi Hj Hne. unfold array2_get.
  destruct (0 <=? i') eqn:Hi'; [|done].
  destruct (0 <=? j') eqn:Hj'; [|done].
  apply Z.leb_le in Hi', Hj'. simpl.
  destruct (decide (i' = i)) as [->|Hii].
  - rewrite list_lookup_insert_eq by (by eapply lookup_lt_Some).
    rewrite Hrow. simpl.
    apply list_lookup_insert_ne. intros Heq. apply Hne. f_equal. lia.
  - rewrite list_lookup_insert_ne by lia. done.
Qed.

(** ** The timer ISR *)

Lemma onTimer_in_bounds (adcValue : Z) (s : State) :
  buffer_ok s = true ->
  exists row, samples s !! Z.to_nat (writeIndex s) = Some row /\ length row = 10%nat /\
    onTimer adcValue s =
      if samplePos s =? 9
      then Done (flipped adcValue row s, Some (writeIndex s))
      else Done (appended adcValue row s, None).
Proof.
  intros Hok. apply buffer_ok_spec in Hok as (Hw & Hp & Ha).
  destruct (array2_set_in_bounds (samples s) (writeIndex s) (samplePos s) adcValue)
    as (row & Hrow & Hlen & Hset); [done|lia|lia|].
  exists row. split; [done|]. split; [done|].
  unfold onTimer. rewrite Hset. simpl.
  rewrite wrap_in_range by (unfold Int.in_range, Int.INT_MIN, Int.INT_MAX; lia).
  destruct (samplePos s =? 9) eqn:Hnine.
  - apply Z.eqb_eq in Hnine.
    replace (10 <=? samplePos s + 1) with true by (symmetry; apply Z.leb_le; lia).
    rewrite wrap_in_range by (unfold Int.in_range, Int.INT_MIN, Int.INT_MAX; lia).
    rewrite to_uint32_small by lia. reflexivity.
  - apply Z.eqb_neq in Hnine.
    replace (10 <=? samplePos s + 1) with false by (symmetry; apply Z.leb_gt; lia).
    reflexivity.
Qed.

Lemma appended_ok (adcValue : Z) (row : list Z) (s : State) :
  buffer_ok s = true -> length row = 10%nat -> samplePos s <> 9 ->
  buffer_ok (appended adcValue row s) = true.
Proof.
  intros Hok Hlen Hp. apply buffer_ok_spec in Hok as (Hw & Hpos & Ha).
  apply buffer_ok_spec. simpl. split; [done|]. split; [lia|].
  apply shape_insert; [done|]. by rewrite length_insert.
Qed.

Lemma flipped_ok (adcValue : Z) (row : list Z) (s : State) :
  buffer_ok s = true -> length row = 10%nat ->
  buffer_ok (flipped adcValue row s) = true.
Proof.
  intros Hok Hlen. apply buffer_ok_spec in Hok as (Hw & Hpos & Ha).
  apply buffer_ok_spec. simpl. split; [lia|]. split; [lia|].
  apply shape_insert; [done|]. by rewrite length_insert.
Qed.

(** C2. In a well-formed state with [samplePos = 9] one run of [onTimer]
    stores the reading in the last cell of the active buffer, hands that
    buffer's index [writeIndex] to Task A (the notification becomes pending
    with this value), flips [writeIndex] to [1 - writeIndex] and resets
    [samplePos] to 0. With [samplePos < 9] it only stores the reading at
    [samples[writeIndex][samplePos]] and increments [samplePos]: no
    handoff, [writeIndex], every other cell and the rest of the state are
    unchanged. *)
Theorem onTimer_write_sample (adcValue : Z) (s : State) :
  buffer_ok s = true ->
  (samplePos s = 9 ->
   exists s',
     onTimer adcValue s = Done (s', Some (writeIndex s)) /\
     array2_get (samples s') (writeIndex s) 9 = Some adcValue /\
     writeIndex s' = 1 - writeIndex s /\
     samplePos s' = 0 /\
     taskA_notification s' = mkNotification (writeIndex s) true /\
     xTaskNotifyWait 0 0 (taskA_notification s')
       = Some (writeIndex s, mkNotification (writeIndex s) false)) /\
  (samplePos s < 9 ->
   exists s',
     onTimer adcValue s = Done (s', None) /\
     array2_get (samples s') (writeIndex s) (samplePos s) = Some adcValue /\
     (forall i j, (i, j) <> (writeIndex s, samplePos s) ->
                  array2_get (samples s') i j = array2_get (samples s) i j) /\
     samplePos s' = samplePos s + 1 /\
     writeIndex s' = writeIndex s /\
     s' = set_samplePos (samplePos s + 1) (set_samples (samples s') s)).
Proof.
  intros Hok.
  destruct (onTimer_in_bounds adcValue s Hok) as (row & Hrow & Hlen & Hrun).
  apply buffer_ok_spec in Hok as (Hw & Hpos & Hlen2 & Hrows).
  assert (Hi : (Z.to_nat (writeIndex s) < length (samples s))%nat) by lia.
  split; intros Hp.
  - exists (flipped adcValue row s).
    rewrite Hrun, Hp. simpl. split; [done|]. split.
    { rewrite Hp. apply array2_get_insert; lia. }
    repeat split.
    unfold xTaskNotifyWait. simpl. do 3 f_equal.
    destruct Hw as [-> | ->]; reflexivity.
  - exists (appended adcValue row s).
    replace (samplePos s =? 9) with false in Hrun by (symmetry; apply Z.eqb_neq; lia).
    split; [done|]. simpl. split.
    { apply array2_get_insert; lia. }
    split; [|done].
    intros i j Hne. apply array2_get_insert_ne; [done|lia|lia|done].
Qed.

(** ** Task B leaves the sampler and Task A alone *)

Lemma TaskB_char_frame (c : ascii) (s : State) :
  samples (TaskB_char c s) = samples s /\
  writeIndex (TaskB_char c s) = writeIndex s /\
  samplePos (TaskB_char c s) = samplePos s /\
  globalAverage (TaskB_char c s) = globalAverage s /\
  taskA_notification (TaskB_char c s) = taskA_notification s /\
  taskA_pc (TaskB_char c s) = taskA_pc s /\
  avgMutex (TaskB_char c s) = avgMutex s.
Proof.
  unfold TaskB_char. destruct s as [a w p ga [holder|] n pc buf out d]; simpl;
    destruct (Ascii.eqb c NL); simpl; try destruct (WString.equals _ _); simpl;
    by repeat split.
Qed.

Lemma TaskB_char_buffer_ok (c : ascii) (s : State) :
  buffer_ok (TaskB_char c s) = buffer_ok s.
Proof.
  destruct (TaskB_char_frame c s) as (H1 & H2 & H3 & _).
  unfold buffer_ok. by rewrite H1, H2, H3.
Qed.

Lemma TaskB_char_system_ok (c : ascii) (s : State) :
  system_ok (TaskB_char c s) = system_ok s.
Proof.
  destruct (TaskB_char_frame c s) as (_ & _ & _ & _ & H5 & _).
  unfold system_ok. by rewrite TaskB_char_buffer_ok, H5.
Qed.

(** ** Task A *)

Lemma TaskA_sum_row (a : list (list Z)) (bufferIndex : Z) (row : list Z) :
  0 <= bufferIndex -> a !! Z.to_nat bufferIndex = Some row -> length row = 10%nat ->
  TaskA_sum a bufferIndex = Done (sum_int row).
Proof.
  intros Hb Hrow Hlen.
  do 10 (destruct row as [|? row]; [discriminate Hlen|]).
  destruct row; [|discriminate Hlen].
  unfold TaskA_sum, array2_get, sum_int.
  replace (0 <=? bufferIndex) with true by (symmetry; apply Z.leb_le; lia).
  rewrite Hrow.
  change (seqZ 0 10) with [0; 1; 2; 3; 4; 5; 6; 7; 8; 9].
  simpl. reflexivity.
Qed.

Lemma TaskA_sum_in_bounds (a : list (list Z)) (bufferIndex : Z) :
  shape a -> 0 <= bufferIndex < 2 ->
  exists row, a !! Z.to_nat bufferIndex = Some row /\ length row = 10%nat /\
              TaskA_sum a bufferIndex = Done (sum_int row).
Proof.
  intros Ha Hb. destruct (shape_row a bufferIndex Ha Hb) as (row & Hrow & Hlen).
  exists row. split; [done|]. split; [done|].
  apply TaskA_sum_row; [lia|done|done].
Qed.

(** In a well-formed state Task A never leaves the bounds of [samples]; a
    step changes neither the buffers nor the value of the notification. *)
Lemma TaskA_step_ok (s : State) :
  system_ok s = true ->
  TaskA_step s = Blocked \/
  exists s', TaskA_step s = Done s' /\ system_ok s' = true /\
             samples s' = samples s /\ writeIndex s' = writeIndex s /\
             samplePos s' = samplePos s.
Proof.
  intros Hok. pose proof Hok as Hsys.
  apply system_ok_spec in Hok as (Hbuf & Hval).
  pose proof Hbuf as Hbuf'. apply buffer_ok_spec in Hbuf' as (Hw & Hp & Ha).
  unfold TaskA_step. destruct (taskA_pc s) as [|average|average].
  - unfold xTaskNotifyWait. destruct (pending (taskA_notification s)); [|by left].
    right.
    destruct (TaskA_sum_in_bounds (samples s) (ulNotifiedValue (taskA_notification s)))
      as (row & _ & _ & Hsum); [done|lia|].
    rewrite Hsum. simpl. eexists. split; [reflexivity|].
    split; [|done].
    apply system_ok_spec. split; [exact Hbuf|]. simpl.
    rewrite Z.land_m1_r. exact Hval.
  - unfold xSemaphoreTake.
    destruct (avgMutex s); [by left|]. right.
    eexists. split; [reflexivity|]. by split.
  - right. eexists. split; [reflexivity|]. by split.
Qed.

(** ** Runs *)

Lemma run_app (es1 es2 : list event) (s : State) :
  run (es1 ++ es2) s =
    '(s1, ls1) ← run es1 s; '(s2, ls2) ← run es2 s1; Done (s2, ls1 ++ ls2).
Proof.
  revert s. induction es1 as [|e es1 IH]; intros s; simpl.
  - by destruct (run es2 s) as [[s2 ls2]| |].
  - destruct (step e s) as [[s1 l]| |]; simpl; [|done|done].
    rewrite IH. destruct (run es1 s1) as [[s1' ls1]| |]; simpl; [|done|done].
    by destruct (run es2 s1') as [[s2 ls2]| |].
Qed.

(** A step from a well-formed state completes in a well-formed state; when
    it hands a buffer off, it is the one that was active, and the active
    buffer changes; otherwise the active buffer stays. *)
Lemma step_ok (e : event) (s : State) :
  system_ok s = true ->
  exists s' l, step e s = Done (s', l) /\ system_ok s' = true /\
    ((l = Handoff (writeIndex s) /\ writeIndex s' = 1 - writeIndex s) \/
     (handoffs [l] = [] /\ writeIndex s' = writeIndex s)).
Proof.
  intros Hsys. pose proof Hsys as Hok.
  apply system_ok_spec in Hok as (Hbuf & Hval).
  destruct e as [adcValue|c|]; simpl.
  - destruct (onTimer_in_bounds adcValue s Hbuf) as (row & Hrow & Hlen & Hrun).
    rewrite Hrun. destruct (samplePos s =? 9) eqn:Hnine; simpl.
    + eexists _, _. split; [reflexivity|]. split; [|by left].
      apply system_ok_spec. split; [by apply flipped_ok|]. simpl.
      apply buffer_ok_spec in Hbuf. tauto.
    + apply Z.eqb_neq in Hnine.
      eexists _, _. split; [reflexivity|]. split; [|by right].
      apply system_ok_spec. split; [by apply appended_ok|]. done.
  - eexists _, _. split; [reflexivity|]. split.
    + by rewrite TaskB_char_system_ok.
    + right. split; [done|]. by destruct (TaskB_char_frame c s) as (_ & -> & _).
  - destruct (TaskA_step_ok s Hsys) as [-> | (s' & -> & Hok' & _ & Hw & _)].
    + eexists _, _. split; [reflexivity|]. split; [done|]. by right.
    + eexists _, _. split; [reflexivity|]. split; [done|]. right.
      split; [|done]. by destruct (taskA_pc s).
Qed.

Lemma handoffs_cons (l : label) (ls : list label) :
  handoffs (l :: ls) = handoffs [l] ++ handoffs ls.
Proof. by destruct l. Qed.

Lemma run_ok (es : list event) (s : State) :
  system_ok s = true ->
  exists s' ls, run es s = Done (s', ls) /\ system_ok s' = true /\
    handoffs ls = alternating (writeIndex s) (length (handoffs ls)).
Proof.
  revert s. induction es as [|e es IH]; intros s Hok.
  - by exists s, [].
  - destruct (step_ok e s Hok) as (s1 & l & Hstep & Hok1 & Hl).
    destruct (IH s1 Hok1) as (s2 & ls & Hrun & Hok2 & Halt).
    exists s2, (l :: ls). split.
    { simpl. rewrite Hstep. simpl. by rewrite Hrun. }
    split; [done|]. rewrite handoffs_cons.
    destruct Hl as [[-> Hw] | [Hquiet Hw]].
    + change (handoffs [Handoff (writeIndex s)]) with [writeIndex s].
      simpl. by rewrite <- Hw, <- Halt.
    + rewrite Hquiet. simpl. by rewrite <- Hw.
Qed.

Lemma init_ok : system_ok init = true.
Proof. reflexivity. Qed.

Lemma alternating_lookup (b : Z) (n k : nat) :
  (k < n)%nat ->
  alternating b n !! k = Some (if Nat.even k then b else 1 - b).
Proof.
  revert b k. induction n as [|n IH]; intros b k Hk; [lia|].
  destruct k as [|k]; [done|]. simpl alternating. rewrite lookup_cons. 
  rewrite IH by lia. rewrite Nat.even_succ, <- Nat.negb_even.
  destruct (Nat.even k); simpl; f_equal; lia.
Qed.

Lemma alternating_length (b : Z) (n : nat) : length (alternating b n) = n.
Proof. revert b. induction n as [|n IH]; intros b; simpl; by rewrite ?IH. Qed.


Lemma mod_2_even (k : nat) : Z.of_nat k mod 2 = if Nat.even k then 0 else 1.
Proof.
  destruct (Nat.even k) eqn:Heven.
  - apply Nat.even_spec in Heven as [m ->].
    rewrite Nat2Z.inj_mul, Z.mul_comm. apply Z.mod_mul. lia.
  - assert (Hodd : Nat.odd k = true) by (by rewrite <- Nat.negb_even, Heven).
    apply Nat.odd_spec in Hodd as [m ->].
    rewrite Nat2Z.inj_add, Nat2Z.inj_mul, Z.add_comm, Z.mul_comm.
    rewrite Z.mod_add by lia. reflexivity.
Qed.

(** C3. In every run from the initial state the slot ids handed off by the
    successive buffer flips alternate 0, 1, 0, 1, ...: the k-th flip
    (counting from 1) hands off slot [(k - 1) mod 2]. *)
Theorem handoffs_alternate (es : list event) :
  exists s' ls,
    run es init = Done (s', ls) /\
    forall k : nat, (1 <= k <= length (handoffs ls))%nat ->
      handoffs ls !! (k - 1)%nat = Some (Z.of_nat (k - 1) mod 2).
Proof.
  destruct (run_ok es init init_ok) as (s' & ls & Hrun & _ & Halt).
  exists s', ls. split; [done|]. intros k Hk.
  rewrite Halt, alternating_lookup by lia.
  rewrite mod_2_even. change (writeIndex init) with 0. by destruct (Nat.even _).
Qed.

(** C10. In every run from the initial state nothing indexes [samples]
    outside its bounds; every slot id handed off is 0 or 1, and whenever a
    notification is pending for Task A the slot id it receives is 0 or 1,
    so that all ten reads [samples[bufferIndex][i]] of the summation loop
    are in bounds and the loop completes. *)
Theorem bufferIndex_in_bounds (es : list event) :
  exists s ls,
    run es init = Done (s, ls) /\
    (forall slot, slot ∈ handoffs ls -> slot = 0 \/ slot = 1) /\
    (forall bufferIndex n,
        xTaskNotifyWait 0 0 (taskA_notification s) = Some (bufferIndex, n) ->
        (bufferIndex = 0 \/ bufferIndex = 1) /\
        (forall i, 0 <= i < 10 -> is_Some (array2_get (samples s) bufferIndex i)) /\
        exists sum, TaskA_sum (samples s) bufferIndex = Done sum).
Proof.
  destruct (run_ok es init init_ok) as (s & ls & Hrun & Hok & Halt).
  exists s, ls. split; [done|]. split.
  - intros slot Hin. apply list_elem_of_lookup in Hin as [k Hk].
    assert (Hlt : (k < length (handoffs ls))%nat) by (by eapply lookup_lt_Some).
    rewrite Halt, alternating_lookup in Hk by done.
    change (writeIndex init) with 0 in Hk.
    destruct (Nat.even k); injection Hk as <-; lia.
  - intros bufferIndex n Hwait.
    apply system_ok_spec in Hok as (Hbuf & Hval).
    apply buffer_ok_spec in Hbuf as (_ & _ & Ha).
    unfold xTaskNotifyWait in Hwait.
    destruct (pending (taskA_notification s)); [|discriminate].
    injection Hwait as <- _.
    split; [done|].
    destruct (TaskA_sum_in_bounds (samples s) (ulNotifiedValue (taskA_notification s)))
      as (row & Hrow & Hlen & Hsum); [done|lia|].
    split; [|by exists (sum_int row)].
    intros i Hi. unfold array2_get.
    replace (0 <=? ulNotifiedValue (taskA_notification s)) with true
      by (symmetry; apply Z.leb_le; lia).
    replace (0 <=? i) with true by (symmetry; apply Z.leb_le; lia).
    simpl. rewrite Hrow. simpl. apply lookup_lt_is_Some_2. lia.
Qed.

(** ** The handoff *)

(** Sending overwrites: after two sends the receiver gets the second value
    and then finds nothing pending. *)
Lemma notify_overwrite (a b : Z) (n : Notification) :
  xTaskNotifyWait 0 0
    (xTaskNotifyFromISR b eSetValueWithOverwrite
       (xTaskNotifyFromISR a eSetValueWithOverwrite n))
  = Some (b, mkNotification b false)
  /\ xTaskNotifyWait 0 0 (mkNotification b false) = None.
Proof. unfold xTaskNotifyWait. simpl. by rewrite Z.land_m1_r. Qed.

(** While Task A does not run, a step without a handoff leaves its
    notification alone and a handoff overwrites it. *)
Lemma step_notification (e : event) (s s' : State) (l : label) :
  system_ok s = true -> is_RunA e = false -> step e s = Done (s', l) ->
  match l with
  | Handoff slot => taskA_notification s' = mkNotification slot true
  | _ => taskA_notification s' = taskA_notification s
  end.
Proof.
  intros Hok HA Hstep. apply system_ok_spec in Hok as (Hbuf & _).
  destruct e as [adcValue|c|]; simpl in Hstep; [| |discriminate].
  - destruct (onTimer_in_bounds adcValue s Hbuf) as (row & _ & _ & Hrun).
    rewrite Hrun in Hstep.
    destruct (samplePos s =? 9); simpl in Hstep; by injection Hstep as <- <-.
  - injection Hstep as <- <-. by destruct (TaskB_char_frame c s) as (_ & _ & _ & _ & -> & _).
Qed.

Lemma run_last_handoff (es : list event) (s s' : State) (ls : list label) :
  system_ok s = true -> no_RunA es = true -> run es s = Done (s', ls) ->
  taskA_notification s' =
    match last (handoffs ls) with
    | Some slot => mkNotification slot true
    | None => taskA_notification s
    end.
Proof.
  revert s ls. induction es as [|e es IH]; intros s ls Hok HA Hrun; simpl in Hrun.
  - by injection Hrun as <- <-.
  - simpl in HA. apply andb_true_iff in HA as [He Hes].
    apply negb_true_iff in He.
    destruct (step_ok e s Hok) as (s1 & l & Hstep & Hok1 & _).
    rewrite Hstep in Hrun. simpl in Hrun.
    destruct (run es s1) as [[s2 ls']| |] eqn:Hrest; simpl in Hrun; try discriminate.
    injection Hrun as <- <-.
    rewrite (IH s1 ls' Hok1 Hes Hrest).
    pose proof (step_notification e s s1 l Hok He Hstep) as Hn.
    rewrite handoffs_cons.
    destruct l as [slot|average|].
    + change (handoffs [Handoff slot]) with [slot].
      destruct (handoffs ls') as [|x xs]; [exact Hn|].
      change ([slot] ++ x :: xs) with (slot :: x :: xs).
      rewrite last_cons_cons.
      destruct (last (x :: xs)) eqn:Hlast; [done|].
      apply last_None in Hlast. discriminate.
    + change (handoffs [Publish average]) with (@nil Z). by rewrite Hn.
    + change (handoffs [Quiet]) with (@nil Z). by rewrite Hn.
Qed.



(** A full buffer and a fresh one. *)
Lemma onTimer_write_sample_witness :
  (exists s', onTimer 7 (set_samplePos 9 init) = Done (s', Some 0) /\
              array2_get (samples s') 0 9 = Some 7 /\
              writeIndex s' = 1 /\ samplePos s' = 0) /\
  (exists s', onTimer 7 init = Done (s', None) /\
              array2_get (samples s') 0 0 = Some 7 /\
              samplePos s' = 1 /\ writeIndex s' = 0).
Proof.
  split.
  - destruct (proj1 (onTimer_write_sample 7 (set_samplePos 9 init) eq_refl) eq_refl)
      as (s' & H1 & H2 & H3 & H4 & _).
    exists s'. repeat split; assumption.
  - destruct (proj2 (onTimer_write_sample 7 init eq_refl) ltac:(simpl; lia))
      as (s' & H1 & H2 & _ & H3 & H4 & _).
    exists s'. repeat split; assumption.
Defined.

(** ** The mean *)

Lemma foldl_wrap_no_overflow (row : list Z) (acc : Z) (k : nat) :
  forallb reading_ok row = true ->
  Z.abs acc <= Z.of_nat k * (Int.INT_MAX / 10) ->
  (k + length row <= 10)%nat ->
  foldl (fun acc x => Int.wrap (acc + x)) acc row = acc + sum_Z row.
Proof.
  revert acc k. induction row as [|x row IH]; intros acc k Hrow Hacc Hlen; simpl.
  - lia.
  - simpl in Hrow, Hlen. apply andb_true_iff in Hrow as [Hx Hrow].
    unfold reading_ok in Hx. apply Z.leb_le in Hx.
    change (Int.INT_MAX / 10) with 214748364 in *.
    rewrite wrap_in_range
      by (unfold Int.in_range, Int.INT_MIN, Int.INT_MAX; lia).
    rewrite (IH (acc + x) (S k)); [lia|done|lia|lia].
Qed.

(** Ten readings of the ADC's range sum up without overflow. *)
Lemma sum_int_no_overflow (row : list Z) :
  forallb reading_ok row = true -> (length row <= 10)%nat ->
  sum_int row = sum_Z row.
Proof.
  intros Hrow Hlen. unfold sum_int.
  rewrite (foldl_wrap_no_overflow row 0 0); [lia|done|simpl; lia|lia].
Qed.

Lemma ten_ticks (readings : list Z) (s : State) :
  buffer_ok s = true -> samplePos s = 0 -> length readings = 10%nat ->
  run (map Tick readings) s
  = Done (filled readings s, replicate 9 Quiet ++ [Handoff (writeIndex s)]).
Proof.
  intros Hok Hpos Hlen.
  apply buffer_ok_spec in Hok as (Hw & _ & Hlen2 & Hrows).
  destruct s as [a w p ga m n pc buf out d]. simpl in *. subst p.
  destruct a as [|row0 [|row1 [|? ?]]]; try discriminate Hlen2.
  apply Forall_cons in Hrows as [Hrow0 Hrows].
  apply Forall_cons in Hrows as [Hrow1 _].
  do 10 (destruct readings as [|? readings]; [discriminate Hlen|]).
  destruct readings; [|discriminate Hlen].
  do 10 (destruct row0 as [|? row0]; [discriminate Hrow0|]).
  destruct row0; [|discriminate Hrow0].
  do 10 (destruct row1 as [|? row1]; [discriminate Hrow1|]).
  destruct row1; [|discriminate Hrow1].
  destruct Hw as [-> | ->]; vm_compute; reflexivity.
Qed.

(** Task A's loop body, run without interruption on a pending
    notification for a buffer with the sum [sum]. *)
Lemma TaskA_loop_body (t : State) (bufferIndex sum : Z) :
  taskA_pc t = A_wait -> avgMutex t = None ->
  taskA_notification t = mkNotification bufferIndex true ->
  TaskA_sum (samples t) bufferIndex = Done sum ->
  exists t',
    run [RunA; RunA; RunA] t
      = Done (t', [Quiet; Quiet; Publish (TaskA_average sum)]) /\
    globalAverage t' = TaskA_average sum /\
    avgMutex t' = None.
Proof.
  intros Hpc Hmutex Hn Hsum.
  destruct t as [a w p ga m n pc buf out d]. simpl in *. subst pc m n.
  unfold step, TaskA_step. simpl. rewrite Hsum. simpl.
  eexists. split; [reflexivity|]. by split.
Qed.

(** C1. Ten readings written into a fresh buffer slot (each within the
    range whose tenfold fits an [int], which covers every ADC), followed by
    Task A's loop body: the ISR hands the slot off once, Task A publishes
    once, and the value it stores in [globalAverage] is the arithmetic mean
    of the ten readings, their integer sum divided by 10 in floating
    point. *)
Theorem average_is_mean (readings : list Z) (s : State) :
  buffer_ok s = true ->
  samplePos s = 0 ->
  taskA_pc s = A_wait ->
  avgMutex s = None ->
  length readings = 10%nat ->
  forallb reading_ok readings = true ->
  exists s' ls,
    run (map Tick readings ++ [RunA; RunA; RunA]) s = Done (s', ls) /\
    handoffs ls = [writeIndex s] /\
    publishes ls = [arithmetic_mean readings] /\
    globalAverage s' = arithmetic_mean readings /\
    avgMutex s' = None.
Proof.
  intros Hok Hpos Hpc Hmutex Hlen Hreadings.
  rewrite run_app, (ten_ticks readings s Hok Hpos Hlen).
  apply buffer_ok_spec in Hok as (Hw & _ & Hlen2 & Hrows).
  assert (Hsum : TaskA_sum (samples (filled readings s)) (writeIndex s)
                 = Done (sum_Z readings)).
  { rewrite (TaskA_sum_row _ _ readings); [|lia| |done].
    - by rewrite sum_int_no_overflow by (done || lia).
    - simpl. apply list_lookup_insert_eq. lia. }
  destruct (TaskA_loop_body (filled readings s) (writeIndex s) (sum_Z readings))
    as (s' & Hrun & Hga & Hm); [done|done|done|done|].
  exists s', (replicate 9 Quiet ++ [Handoff (writeIndex s)]
                ++ [Quiet; Quiet; Publish (arithmetic_mean readings)]).
  split.
  { change (arithmetic_mean readings) with (TaskA_average (sum_Z readings)).
    unfold mbind, outcome_bind. rewrite Hrun.
    by rewrite <- app_assoc. }
  by repeat split.
Qed.

(** Ten readings of 512 and 513 from the initial state. *)
Lemma average_is_mean_witness :
  exists s' ls,
    run (map Tick [512; 513; 512; 512; 512; 512; 513; 512; 512; 513]
           ++ [RunA; RunA; RunA]) init = Done (s', ls) /\
    handoffs ls = [0] /\
    publishes ls
      = [arithmetic_mean [512; 513; 512; 512; 512; 512; 513; 512; 512; 513]] /\
    globalAverage s'
      = arithmetic_mean [512; 513; 512; 512; 512; 512; 513; 512; 512; 513] /\
    avgMutex s' = None.
Proof.
  exact (average_is_mean [512; 513; 512; 512; 512; 512; 513; 512; 512; 513] init
           eq_refl eq_refl eq_refl eq_refl eq_refl eq_refl).
Defined.

(** ** Task B *)

Lemma append_assoc (a b c : string) : (a +:+ b) +:+ c = a +:+ b +:+ c.
Proof.
  induction a as [|x a IH]; [done|].
  change (String x ((a +:+ b) +:+ c) = String x (a +:+ b +:+ c)). by rewrite IH.
Qed.

Lemma append_nil_r (a : string) : a +:+ "" = a.
Proof.
  induction a as [|x a IH]; [done|].
  change (String x (a +:+ "") = String x a). by rewrite IH.
Qed.

Lemma append_cons (a : string) (c : ascii) (b : string) :
  a +:+ String c b = (a +:+ String c "") +:+ b.
Proof. by rewrite append_assoc. Qed.

Lemma TaskB_input_app (a b : string) (s : State) :
  TaskB_input (a +:+ b) s = TaskB_input b (TaskB_input a s).
Proof. revert s. induction a as [|x a IH]; intros s; simpl; [done|]. apply IH. Qed.

(** Characters other than the newline are echoed and collected. *)
Lemma TaskB_input_line (line : string) (s : State) :
  no_NL line = true ->
  TaskB_input line s
  = set_inputBuffer (inputBuffer s +:+ line) (set_Serial (Serial s +:+ line) s).
Proof.
  revert s. induction line as [|c line IH]; intros s Hline; simpl.
  - rewrite !append_nil_r. by destruct s.
  - simpl in Hline. apply andb_true_iff in Hline as [Hc Hline].
    apply negb_true_iff in Hc. rewrite IH by done.
    unfold TaskB_char. rewrite Hc. destruct s as [a w p ga m n pc buf out d].
    eval_state. by rewrite <- (append_cons buf), <- (append_cons out).
Qed.


Lemma TaskB_newline_avg (s : State) :
  WString.trim (inputBuffer s) = "avg" -> avgMutex s = None ->
  TaskB_char NL s
  = set_inputBuffer ""
      (updateOLED ("Average: " +:+ WString.of_float (globalAverage s) 2)
         (set_Serial
            (Serial s +:+
               String NL
                 ("Average: " +:+
                    Print.println
                      (Print.printFloat (IEEE.double_of_float (globalAverage s)) 2)))
            s)).
Proof.
  intros Havg Hfree. unfold TaskB_char. destruct s as [a w p ga m n pc buf out d].
  simpl in *. rewrite Havg. subst m. simpl. eval_state.
  by rewrite !append_assoc.
Qed.

Lemma TaskB_newline_timeout (s : State) (holder : Task) :
  WString.trim (inputBuffer s) = "avg" -> avgMutex s = Some holder ->
  TaskB_char NL s
  = set_inputBuffer ""
      (set_Serial (Serial s +:+ String NL (Print.println avg_error)) s).
Proof.
  intros Havg Hheld. unfold TaskB_char. destruct s as [a w p ga m n pc buf out d].
  simpl in *. rewrite Havg. subst m. simpl. eval_state.
  by rewrite append_assoc.
Qed.








(** C5. When the command [avg] is dispatched while [avgMutex] stays held
    elsewhere for the whole bounded wait, Task B writes the fixed error line
    to [Serial] and nothing else: the display, [globalAverage] and the mutex
    are unchanged, and what it writes does not depend on [globalAverage]
    (which it does not read). *)
Theorem avg_timeout (s : State) (holder : Task) :
  WString.trim (inputBuffer s) = "avg" ->
  avgMutex s = Some holder ->
  Serial (TaskB_char NL s) = Serial s +:+ String NL (Print.println avg_error) /\
  oled (TaskB_char NL s) = oled s /\
  globalAverage (TaskB_char NL s) = globalAverage s /\
  avgMutex (TaskB_char NL s) = avgMutex s /\
  forall v : spec_float,
    Serial (TaskB_char NL (set_globalAverage v s)) = Serial (TaskB_char NL s) /\
    oled (TaskB_char NL (set_globalAverage v s)) = oled (TaskB_char NL s).
Proof.
  intros Havg Hheld.
  rewrite (TaskB_newline_timeout s holder Havg Hheld).
  repeat split.
  - by rewrite (TaskB_newline_timeout (set_globalAverage v s) holder).
  - by rewrite (TaskB_newline_timeout (set_globalAverage v s) holder).
Qed.

Lemma avg_timeout_witness :
  Serial (TaskB_char NL held_by_taskA)
    = String NL (String.append avg_error Print.CRLF) /\
  oled (TaskB_char NL held_by_taskA) = oled held_by_taskA /\
  globalAverage (TaskB_char NL held_by_taskA) = globalAverage held_by_taskA /\
  avgMutex (TaskB_char NL held_by_taskA) = avgMutex held_by_taskA /\
  forall v : spec_float,
    Serial (TaskB_char NL (set_globalAverage v held_by_taskA))
      = Serial (TaskB_char NL held_by_taskA) /\
    oled (TaskB_char NL (set_globalAverage v held_by_taskA))
      = oled (TaskB_char NL held_by_taskA).
Proof.
  exact (avg_timeout held_by_taskA taskA eq_refl eq_refl).
Defined.

(** ** The published mean and the queries *)

(** Only a publishing step of Task A changes [globalAverage]. *)
Lemma step_globalAverage (e : event) (s s' : State) (l : label) :
  step e s = Done (s', l) -> publishes [l] = [] ->
  globalAverage s' = globalAverage s.
Proof.
  intros Hstep Hquiet. destruct e as [adcValue|c|]; simpl in Hstep.
  - unfold onTimer in Hstep.
    destruct (array2_set (samples s) (writeIndex s) (samplePos s) adcValue)
      as [a'|]; simpl in Hstep; [|discriminate].
    destruct (10 <=? Int.wrap (samplePos s + 1)); simpl in Hstep;
      by injection Hstep as <- _.
  - injection Hstep as <- _. by destruct (TaskB_char_frame c s) as (_ & _ & _ & -> & _).
  - unfold TaskA_step in Hstep. destruct (taskA_pc s) as [|average|average].
    + destruct (xTaskNotifyWait 0 0 (taskA_notification s)) as [[bufferIndex n]|].
      * destruct (TaskA_sum (samples s) bufferIndex); simpl in Hstep;
          try discriminate; by injection Hstep as <- _.
      * by injection Hstep as <- _.
    + destruct (xSemaphoreTake (avgMutex s) taskA); by injection Hstep as <- _.
    + injection Hstep as _ <-. discriminate Hquiet.
Qed.

Lemma publishes_cons (l : label) (ls : list label) :
  publishes (l :: ls) = publishes [l] ++ publishes ls.
Proof. by destruct l. Qed.

Lemma run_globalAverage (es : list event) (s s' : State) (ls : list label) :
  run es s = Done (s', ls) -> publishes ls = [] ->
  globalAverage s' = globalAverage s.
Proof.
  revert s ls. induction es as [|e es IH]; intros s ls Hrun Hquiet; simpl in Hrun.
  - by injection Hrun as <- _.
  - destruct (step e s) as [[s1 l]| |] eqn:Hstep; simpl in Hrun; try discriminate.
    destruct (run es s1) as [[s2 ls']| |] eqn:Hrest; simpl in Hrun; try discriminate.
    injection Hrun as <- <-. rewrite publishes_cons in Hquiet.
    apply app_eq_nil in Hquiet as [Hl Hls].
    rewrite (IH s1 ls' Hrest Hls). by eapply step_globalAverage.
Qed.

(** What a successful [avg] query writes and renders. *)
Lemma avg_reply_text (s : State) :
  WString.trim (inputBuffer s) = "avg" -> avgMutex s = None ->
  Serial (TaskB_char NL s)
    = Serial s +:+
        String NL ("Average: " +:+
                   Print.printFloat (IEEE.double_of_float (globalAverage s)) 2 +:+
                   Print.CRLF) /\
  OLED.screen (oled (TaskB_char NL s))
    = ("Average: " +:+ WString.of_float (globalAverage s) 2) +:+ Print.CRLF.
Proof.
  intros Havg Hfree. rewrite (TaskB_newline_avg s Havg Hfree). by split.
Qed.

(** C6, as stated, fails: with 512.3 in [globalAverage] a successful [avg]
    query shows [Average: 512.30] on [Serial] and on the display, not
    [Average: 512.3]. *)
Lemma avg_reply_512_3_counterexample :
  avgMutex holding_512_3 = None /\
  Serial (TaskB_char NL holding_512_3)
    = String NL (String.append "Average: 512.30" Print.CRLF) /\
  Serial (TaskB_char NL holding_512_3)
    <> String NL (String.append "Average: 512.3" Print.CRLF) /\
  OLED.screen (oled (TaskB_char NL holding_512_3))
    = String.append "Average: 512.30" Print.CRLF /\
  OLED.screen (oled (TaskB_char NL holding_512_3))
    <> String.append "Average: 512.3" Print.CRLF.
Proof.
  assert (Hserial : Serial (TaskB_char NL holding_512_3)
                    = String NL (String.append "Average: 512.30" Print.CRLF))
    by (vm_compute; reflexivity).
  assert (Hscreen : OLED.screen (oled (TaskB_char NL holding_512_3))
                    = String.append "Average: 512.30" Print.CRLF)
    by (vm_compute; reflexivity).
  split; [reflexivity|]. split; [exact Hserial|]. split.
  { rewrite Hserial. vm_compute. discriminate. }
  split; [exact Hscreen|]. rewrite Hscreen. vm_compute. discriminate.
Qed.

(** C6, amended. A successful [avg] query writes to [Serial], after the
    echo of the newline, the line [Average: ] followed by [globalAverage]
    printed with two digits after the decimal point, and renders on the
    display [Average: ] followed by [globalAverage] converted to a [String]
    with two decimal places; with 512.3 in [globalAverage] both show
    [Average: 512.30]. *)
Theorem avg_reply (s : State) :
  WString.trim (inputBuffer s) = "avg" ->
  avgMutex s = None ->
  Serial (TaskB_char NL s)
    = Serial s +:+
        String NL ("Average: " +:+
                   Print.printFloat (IEEE.double_of_float (globalAverage s)) 2 +:+
                   Print.CRLF) /\
  OLED.screen (oled (TaskB_char NL s))
    = ("Average: " +:+ WString.of_float (globalAverage s) 2) +:+ Print.CRLF /\
  (globalAverage s = TaskA_average 5123 ->
   Serial (TaskB_char NL s)
     = Serial s +:+ String NL ("Average: 512.30" +:+ Print.CRLF) /\
   OLED.screen (oled (TaskB_char NL s)) = "Average: 512.30" +:+ Print.CRLF).
Proof.
  intros Havg Hfree. rewrite (TaskB_newline_avg s Havg Hfree).
  split; [reflexivity|]. split; [reflexivity|].
  intros ->. split.
  - cbn [Serial set_inputBuffer updateOLED set_oled set_Serial].
    apply (f_equal (fun reply => Serial s +:+ String NL ("Average: " +:+ reply))).
    vm_compute. reflexivity.
  - cbn [oled set_inputBuffer updateOLED set_oled]. vm_compute. reflexivity.
Qed.

Lemma avg_reply_witness :
  Serial (TaskB_char NL holding_512_3)
    = String.append (Serial holding_512_3)
        (String NL (String.append "Average: 512.30" Print.CRLF)) /\
  OLED.screen (oled (TaskB_char NL holding_512_3))
    = String.append "Average: 512.30" Print.CRLF.
Proof.
  exact (proj2 (proj2 (avg_reply holding_512_3 eq_refl eq_refl)) eq_refl).
Defined.

(** C8. Two successful [avg] queries between which Task A publishes no new
    mean (the run [es] in between has no publishing step) give the same
    reply: the same line on [Serial] and the same text on the display. *)
Theorem avg_idempotent
        (s s2 : State) (es : list event) (ls : list label) :
  WString.trim (inputBuffer s) = "avg" ->
  avgMutex s = None ->
  run es (TaskB_char NL s) = Done (s2, ls) ->
  publishes ls = [] ->
  WString.trim (inputBuffer s2) = "avg" ->
  avgMutex s2 = None ->
  exists reply : string,
    Serial (TaskB_char NL s) = Serial s +:+ String NL reply /\
    Serial (TaskB_char NL s2) = Serial s2 +:+ String NL reply /\
    OLED.screen (oled (TaskB_char NL s2)) = OLED.screen (oled (TaskB_char NL s)) /\
    globalAverage s2 = globalAverage s.
Proof.
  intros Havg Hfree Hrun Hquiet Havg2 Hfree2.
  assert (Hsame : globalAverage s2 = globalAverage s).
  { rewrite (run_globalAverage es _ s2 ls Hrun Hquiet).
    by destruct (TaskB_char_frame NL s) as (_ & _ & _ & -> & _). }
  destruct (avg_reply_text s Havg Hfree) as (Hs & Hd).
  destruct (avg_reply_text s2 Havg2 Hfree2) as (Hs2 & Hd2).
  eexists. split; [exact Hs|]. rewrite Hs2, Hd2, Hd, Hsame. by repeat split.
Qed.

(** Two queries from the initial state, with eleven readings and the second
    command typed in between. *)
Lemma avg_idempotent_witness :
  exists reply : string,
    Serial (TaskB_char NL (set_inputBuffer "avg" init))
      = String.append (Serial (set_inputBuffer "avg" init)) (String NL reply) /\
    Serial (TaskB_char NL
              (TaskB_input "avg"
                 (filled (replicate 10 7)
                    (TaskB_char NL (set_inputBuffer "avg" init)))))
      = String.append
          (Serial (TaskB_input "avg"
                     (filled (replicate 10 7)
                        (TaskB_char NL (set_inputBuffer "avg" init)))))
          (String NL reply) /\
    OLED.screen
      (oled (TaskB_char NL
               (TaskB_input "avg"
                  (filled (replicate 10 7)
                     (TaskB_char NL (set_inputBuffer "avg" init))))))
      = OLED.screen (oled (TaskB_char NL (set_inputBuffer "avg" init))) /\
    globalAverage
      (TaskB_input "avg"
         (filled (replicate 10 7) (TaskB_char NL (set_inputBuffer "avg" init))))
      = globalAverage (set_inputBuffer "avg" init).
Proof.
  exact (avg_idempotent
           (set_inputBuffer "avg" init)
           (TaskB_input "avg"
              (filled (replicate 10 7) (TaskB_char NL (set_inputBuffer "avg" init))))
           (map Tick (replicate 10 7) ++ [Key "a"; Key "v"; Key "g"])%char
           (replicate 9 Quiet ++ [Handoff 0; Quiet; Quiet; Quiet])
           ltac:(vm_compute; reflexivity) ltac:(vm_compute; reflexivity)
           ltac:(vm_compute; reflexivity) ltac:(vm_compute; reflexivity)
           ltac:(vm_compute; reflexivity) ltac:(vm_compute; reflexivity)).
Defined.

(** C9. [globalAverage] starts at 0.0: in every run from the initial state
    in which Task A has not yet published, a successful [avg] query replies
    [Average: 0.00], on [Serial] and on the display. *)
Theorem avg_before_first_publish
        (es : list event) (s : State) (ls : list label) :
  run es init = Done (s, ls) ->
  publishes ls = [] ->
  WString.trim (inputBuffer s) = "avg" ->
  avgMutex s = None ->
  globalAverage init = IEEE.zero /\
  globalAverage s = IEEE.zero /\
  Serial (TaskB_char NL s)
    = Serial s +:+ String NL ("Average: 0.00" +:+ Print.CRLF) /\
  OLED.screen (oled (TaskB_char NL s)) = "Average: 0.00" +:+ Print.CRLF.
Proof.
  intros Hrun Hquiet Havg Hfree.
  assert (Hzero : globalAverage s = IEEE.zero)
    by apply (run_globalAverage es init s ls Hrun Hquiet).
  split; [reflexivity|]. split; [exact Hzero|].
  destruct (avg_reply_text s Havg Hfree) as (-> & ->). rewrite Hzero.
  split; [|vm_compute; reflexivity].
  apply (f_equal (fun reply => Serial s +:+ String NL ("Average: " +:+ reply))).
  vm_compute. reflexivity.
Qed.

(** The command typed right after start-up. *)
Lemma avg_before_first_publish_witness :
  globalAverage init = IEEE.zero /\
  globalAverage (TaskB_input "avg" init) = IEEE.zero /\
  Serial (TaskB_char NL (TaskB_input "avg" init))
    = String.append (Serial (TaskB_input "avg" init))
        (String NL (String.append "Average: 0.00" Print.CRLF)) /\
  OLED.screen (oled (TaskB_char NL (TaskB_input "avg" init)))
    = String.append "Average: 0.00" Print.CRLF.
Proof.
  exact (avg_before_first_publish
           [Key "a"; Key "v"; Key "g"]%char (TaskB_input "avg" init)
           [Quiet; Quiet; Quiet] eq_refl eq_refl eq_refl eq_refl).
Defined.

(** ** A session *)

(** Ten readings with the mean 512.3, Task A's loop body, then the command:
    one handoff, one published mean, and the reply on [Serial] and on the
    display. *)
Example session_reply :
  exists s ls,
    run session init = Done (s, ls) /\
    handoffs ls = [0] /\
    publishes ls = [TaskA_average 5123] /\
    Serial s = String.append "avg"
                 (String NL (String.append "Average: 512.30" Print.CRLF)) /\
    OLED.screen (oled s) = String.append "Average: 512.30" Print.CRLF.
Proof. eexists _, _. split; [vm_compute; reflexivity|]. by vm_compute. Qed.

(** Forty readings: four handoffs, alternating. *)
Example forty_ticks_handoffs :
  exists s ls,
    run (map Tick (seqZ 0 40)) init = Done (s, ls) /\ handoffs ls = [0; 1; 0; 1].
Proof. eexists _, _. split; [vm_compute; reflexivity|]. by vm_compute. Qed.

(* ===================================================================== *)
(** * Further properties of the sampler *)

(** [onTimer] stays within [samples] exactly when the indices are in range. *)
Lemma array2_set_Some_bounds (a a' : list (list Z)) (i j v : Z) :
  shape a -> array2_set a i j v = Some a' -> 0 <= i < 2 /\ 0 <= j < 10.
Proof.
  intros [Hlen Hrows] Hset. unfold array2_set in Hset.
  destruct (0 <=? i) eqn:Hi; [|discriminate].
  destruct (0 <=? j) eqn:Hj; [|discriminate].
  apply Z.leb_le in Hi, Hj. simpl in Hset.
  destruct (a !! Z.to_nat i) as [row|] eqn:Hrow; [|discriminate]. simpl in Hset.
  destruct (row !! Z.to_nat j) as [x|] eqn:Hx; [|discriminate].
  apply lookup_lt_Some in Hx.
  assert (Hrow' : length row = 10%nat)
    by (rewrite Forall_lookup in Hrows; by eapply Hrows).
  apply lookup_lt_Some in Hrow. lia.
Qed.

(** X1. [onTimer] keeps the double buffer well formed: from a well-formed
    state it completes, without leaving the bounds of [samples], in a
    well-formed state. *)
Theorem onTimer_keeps_buffer_ok (adcValue : Z) (s : State) :
  buffer_ok s = true ->
  exists s' sent, onTimer adcValue s = Done (s', sent) /\ buffer_ok s' = true.
Proof.
  intros Hok. destruct (onTimer_in_bounds adcValue s Hok) as (row & _ & Hlen & ->).
  destruct (samplePos s =? 9) eqn:Hnine.
  - eexists _, _. split; [reflexivity|]. by apply flipped_ok.
  - apply Z.eqb_neq in Hnine. eexists _, _. split; [reflexivity|].
    by apply appended_ok.
Qed.

Lemma onTimer_keeps_buffer_ok_witness :
  exists s' sent, onTimer 7 init = Done (s', sent) /\ buffer_ok s' = true.
Proof. exact (onTimer_keeps_buffer_ok 7 init eq_refl). Defined.

(** X2. With [samples] of its declared shape, the store
    [samples[writeIndex][samplePos] = adcValue] of [onTimer] is within the
    bounds of the array exactly when [writeIndex] is 0 or 1 and [samplePos]
    is between 0 and 9; in every other state [onTimer] writes outside the
    array. *)
Theorem onTimer_in_bounds_iff (adcValue : Z) (s : State) :
  shape (samples s) ->
  (exists r, onTimer adcValue s = Done r) <->
  (0 <= writeIndex s < 2 /\ 0 <= samplePos s < 10).
Proof.
  intros Ha. split.
  - intros [r Hrun]. unfold onTimer in Hrun.
    destruct (array2_set (samples s) (writeIndex s) (samplePos s) adcValue)
      as [a'|] eqn:Hset; [|discriminate].
    by eapply array2_set_Some_bounds.
  - intros [Hw Hp].
    destruct (array2_set_in_bounds (samples s) (writeIndex s) (samplePos s) adcValue)
      as (row & _ & _ & Hset); [done..|].
    unfold onTimer. rewrite Hset. simpl.
    destruct (10 <=? _); eexists; reflexivity.
Qed.

Lemma onTimer_in_bounds_iff_witness :
  ((exists r, onTimer 7 (set_samplePos 10 init) = Done r) <->
   (0 <= writeIndex (set_samplePos 10 init) < 2 /\
    0 <= samplePos (set_samplePos 10 init) < 10)) /\
  onTimer 7 (set_samplePos 10 init) = Fault.
Proof.
  split; [|reflexivity].
  apply (onTimer_in_bounds_iff 7 (set_samplePos 10 init)).
  split; [reflexivity|]. repeat constructor.
Defined.

(** ** The period of the sampler *)

Lemma step_position (e : event) (s s' : State) (l : label) :
  system_ok s = true -> step e s = Done (s', l) ->
  samplePos s' + 10 * Z.of_nat (length (handoffs [l]))
    = samplePos s + (if is_Tick e then 1 else 0) /\
  (forall r : nat, r <> Z.to_nat (writeIndex s) -> samples s' !! r = samples s !! r) /\
  (is_Tick e = false -> samples s' = samples s).
Proof.
  intros Hsys Hstep. pose proof Hsys as Hok.
  apply system_ok_spec in Hok as (Hbuf & _).
  destruct e as [adcValue|c|]; simpl in Hstep.
  - destruct (onTimer_in_bounds adcValue s Hbuf) as (row & _ & _ & Hrun).
    rewrite Hrun in Hstep. destruct (samplePos s =? 9) eqn:Hnine; simpl in Hstep;
      injection Hstep as <- <-; simpl.
    + apply Z.eqb_eq in Hnine. split; [lia|]. split; [|done].
      intros r Hr. by apply list_lookup_insert_ne.
    + split; [lia|]. split; [|done].
      intros r Hr. by apply list_lookup_insert_ne.
  - injection Hstep as <- <-.
    destruct (TaskB_char_frame c s) as (Ha & _ & Hp & _). rewrite Ha, Hp. simpl.
    split; [lia|]. by split.
  - destruct (TaskA_step_ok s Hsys) as [HA | (s1 & HA & _ & Ha & _ & Hp)];
      rewrite HA in Hstep; injection Hstep as <- <-.
    + simpl. split; [lia|]. by split.
    + rewrite Ha, Hp. split; [|by split].
      destruct (taskA_pc s); simpl; lia.
Qed.

Lemma ticks_cons (e : event) (es : list event) :
  ticks (e :: es) = ((if is_Tick e then 1 else 0) + ticks es)%nat.
Proof. unfold ticks. simpl. by destruct (is_Tick e). Qed.

Lemma run_position (es : list event) (s s' : State) (ls : list label) :
  system_ok s = true -> run es s = Done (s', ls) ->
  samplePos s' + 10 * Z.of_nat (length (handoffs ls))
    = samplePos s + Z.of_nat (ticks es) /\
  writeIndex s'
    = (if Nat.even (length (handoffs ls)) then writeIndex s else 1 - writeIndex s).
Proof.
  revert s ls. induction es as [|e es IH]; intros s ls Hok Hrun; simpl in Hrun.
  - injection Hrun as <- <-. simpl. split; [unfold ticks; simpl; lia|done].
  - destruct (step_ok e s Hok) as (s1 & l & Hstep & Hok1 & Hl).
    rewrite Hstep in Hrun. simpl in Hrun.
    destruct (run es s1) as [[s2 ls']| |] eqn:Hrest; simpl in Hrun; try discriminate.
    injection Hrun as <- <-.
    destruct (IH s1 ls' Hok1 Hrest) as (Hpos & Hw).
    destruct (step_position e s s1 l Hok Hstep) as (Hpos1 & _).
    rewrite handoffs_cons, length_app, ticks_cons. split.
    + destruct (is_Tick e); lia.
    + rewrite Hw. destruct Hl as [[-> Hw1] | [-> Hw1]]; rewrite Hw1; simpl length.
      * rewrite Nat.even_succ, <- Nat.negb_even.
        destruct (Nat.even (length (handoffs ls'))); simpl; [done|lia].
      * done.
Qed.

(** X3. The sampler has period 10. Along any run from a well-formed state
    (whatever the tasks do in between), with [n] timer interrupts in the
    run: [samplePos] ends at [(samplePos + n) mod 10], the number of
    handoffs is [(samplePos + n) / 10], and [writeIndex] has flipped once
    per handoff. *)
Theorem sampler_period (es : list event) (s : State) :
  system_ok s = true ->
  exists s' ls,
    run es s = Done (s', ls) /\
    samplePos s' = (samplePos s + Z.of_nat (ticks es)) mod 10 /\
    Z.of_nat (length (handoffs ls)) = (samplePos s + Z.of_nat (ticks es)) / 10 /\
    writeIndex s'
      = (if Nat.even (length (handoffs ls)) then writeIndex s else 1 - writeIndex s).
Proof.
  intros Hok. destruct (run_ok es s Hok) as (s' & ls & Hrun & Hok' & _).
  exists s', ls. split; [done|].
  destruct (run_position es s s' ls Hok Hrun) as (Hpos & Hw).
  apply system_ok_spec in Hok' as (Hbuf & _).
  apply buffer_ok_spec in Hbuf as (_ & Hp & _).
  split; [|split; [|done]].
  - apply (Z.mod_unique _ _ (Z.of_nat (length (handoffs ls)))); lia.
  - apply (Z.div_unique _ _ _ (samplePos s')); lia.
Qed.

Lemma sampler_period_witness :
  exists s' ls,
    run (map Tick (seqZ 0 25) ++ [RunA; Key NL]) init = Done (s', ls) /\
    samplePos s' = 5 /\
    Z.of_nat (length (handoffs ls)) = 2 /\
    writeIndex s'
      = (if Nat.even (length (handoffs ls)) then writeIndex init
         else 1 - writeIndex init).
Proof.
  exact (sampler_period (map Tick (seqZ 0 25) ++ [RunA; Key NL]) init eq_refl).
Defined.

(** ** The buffer that is ready *)

Lemma run_no_ticks (es : list event) (s s' : State) (ls : list label) :
  system_ok s = true -> ticks es = 0%nat -> run es s = Done (s', ls) ->
  samples s' = samples s.
Proof.
  revert s ls. induction es as [|e es IH]; intros s ls Hok Hn Hrun; simpl in Hrun.
  - by injection Hrun as <- _.
  - destruct (step_ok e s Hok) as (s1 & l & Hstep & Hok1 & _).
    rewrite Hstep in Hrun. simpl in Hrun.
    destruct (run es s1) as [[s2 ls']| |] eqn:Hrest; simpl in Hrun; try discriminate.
    injection Hrun as <- _. rewrite ticks_cons in Hn.
    destruct (step_position e s s1 l Hok Hstep) as (_ & _ & Hsame).
    destruct (is_Tick e); [lia|].
    rewrite (IH s1 ls' Hok1 Hn Hrest). by apply Hsame.
Qed.

Lemma system_ok_ranges (s : State) :
  system_ok s = true ->
  (writeIndex s = 0 \/ writeIndex s = 1) /\ 0 <= samplePos s < 10.
Proof.
  intros Hok. apply system_ok_spec in Hok as (Hbuf & _).
  apply buffer_ok_spec in Hbuf. tauto.
Qed.

Lemma run_window (es : list event) (s s' : State) (ls : list label) :
  system_ok s = true ->
  samplePos s + Z.of_nat (ticks es) <= 10 ->
  run es s = Done (s', ls) ->
  samples s' !! Z.to_nat (1 - writeIndex s) = samples s !! Z.to_nat (1 - writeIndex s).
Proof.
  revert s ls. induction es as [|e es IH]; intros s ls Hok Hn Hrun; simpl in Hrun.
  - by injection Hrun as <- _.
  - destruct (step_ok e s Hok) as (s1 & l & Hstep & Hok1 & Hl).
    rewrite Hstep in Hrun. simpl in Hrun.
    destruct (run es s1) as [[s2 ls']| |] eqn:Hrest; simpl in Hrun; try discriminate.
    injection Hrun as <- _. rewrite ticks_cons in Hn.
    destruct (step_position e s s1 l Hok Hstep) as (Hpos & Hrows & Hsame).
    destruct (system_ok_ranges s Hok) as (Hw & Hp).
    destruct (system_ok_ranges s1 Hok1) as (Hw1 & Hp1).
    assert (Hrow1 : samples s1 !! Z.to_nat (1 - writeIndex s)
                    = samples s !! Z.to_nat (1 - writeIndex s))
      by (apply Hrows; lia).
    destruct Hl as [[-> Hflip] | [Hquiet Hstay]].
    + simpl in Hpos. destruct (is_Tick e); [|lia].
      rewrite (run_no_ticks es s1 s2 ls' Hok1 ltac:(lia) Hrest). exact Hrow1.
    + rewrite Hquiet in Hpos. simpl in Hpos. rewrite <- Hrow1, <- Hstay.
      apply (IH s1 ls' Hok1); [|done]. destruct (is_Tick e); lia.
Qed.

(** X4. One fill period of slack. Along any run from a well-formed state in
    which the active buffer does not fill up more than once (at most
    [10 - samplePos] timer interrupts), the other buffer, the one handed
    off last, keeps its contents, whatever the tasks do. *)
Theorem ready_buffer_intact (es : list event) (s : State) :
  system_ok s = true ->
  samplePos s + Z.of_nat (ticks es) <= 10 ->
  exists s' ls,
    run es s = Done (s', ls) /\
    samples s' !! Z.to_nat (1 - writeIndex s)
      = samples s !! Z.to_nat (1 - writeIndex s).
Proof.
  intros Hok Hn. destruct (run_ok es s Hok) as (s' & ls & Hrun & _).
  exists s', ls. split; [done|]. by eapply run_window.
Qed.

(** Ten readings after a flip: the buffer handed off is still intact. *)
Lemma ready_buffer_intact_witness :
  exists s' ls,
    run (map Tick (replicate 10 9) ++ [RunA])
        (filled (replicate 10 7) init) = Done (s', ls) /\
    samples s' !! Z.to_nat (1 - writeIndex (filled (replicate 10 7) init))
      = samples (filled (replicate 10 7) init)
          !! Z.to_nat (1 - writeIndex (filled (replicate 10 7) init)).
Proof.
  exact (ready_buffer_intact (map Tick (replicate 10 9) ++ [RunA])
           (filled (replicate 10 7) init) eq_refl ltac:(vm_compute; discriminate)).
Defined.

(** ** Task A between handoff and store *)

Lemma filled_ok (readings : list Z) (s : State) :
  buffer_ok s = true -> length readings = 10%nat ->
  buffer_ok (filled readings s) = true.
Proof.
  intros Hok Hlen. apply buffer_ok_spec in Hok as (Hw & Hpos & Ha).
  apply buffer_ok_spec. simpl. split; [lia|]. split; [lia|].
  by apply shape_insert.
Qed.

Lemma filled_row (readings : list Z) (s : State) :
  buffer_ok s = true ->
  samples (filled readings s) !! Z.to_nat (writeIndex s) = Some readings.
Proof.
  intros Hok. apply buffer_ok_spec in Hok as (Hw & _ & Hlen & _).
  simpl. apply list_lookup_insert_eq. lia.
Qed.

(** Task A's loop body once more, with the state it ends in. *)
Lemma TaskA_loop_body_idle (t : State) (bufferIndex sum : Z) :
  taskA_pc t = A_wait -> avgMutex t = None ->
  taskA_notification t = mkNotification bufferIndex true ->
  TaskA_sum (samples t) bufferIndex = Done sum ->
  exists t',
    run [RunA; RunA; RunA] t
      = Done (t', [Quiet; Quiet; Publish (TaskA_average sum)]) /\
    globalAverage t' = TaskA_average sum /\
    avgMutex t' = None /\
    TaskA_step t' = Blocked.
Proof.
  intros Hpc Hmutex Hn Hsum.
  destruct t as [a w p ga m n pc buf out d]. simpl in *. subst pc m n.
  unfold step, TaskA_step. simpl. rewrite Hsum. simpl.
  eexists. split; [reflexivity|]. by repeat split.
Qed.

(** While Task A does not run, its place in the loop, the mutex and
    [globalAverage] stay as they are. *)
Lemma run_no_RunA_frame (es : list event) (s s' : State) (ls : list label) :
  system_ok s = true -> no_RunA es = true -> run es s = Done (s', ls) ->
  taskA_pc s' = taskA_pc s /\ avgMutex s' = avgMutex s /\ publishes ls = [].
Proof.
  revert s ls. induction es as [|e es IH]; intros s ls Hok HA Hrun; simpl in Hrun.
  - by injection Hrun as <- <-.
  - simpl in HA. apply andb_true_iff in HA as [He Hes].
    apply negb_true_iff in He.
    destruct (step_ok e s Hok) as (s1 & l & Hstep & Hok1 & _).
    rewrite Hstep in Hrun. simpl in Hrun.
    destruct (run es s1) as [[s2 ls']| |] eqn:Hrest; simpl in Hrun; try discriminate.
    injection Hrun as <- <-.
    destruct (IH s1 ls' Hok1 Hes Hrest) as (-> & -> & Hpub).
    rewrite publishes_cons, Hpub.
    apply system_ok_spec in Hok as (Hbuf & _).
    destruct e as [adcValue|c|]; simpl in Hstep; [| |discriminate].
    + destruct (onTimer_in_bounds adcValue s Hbuf) as (row & _ & _ & Hrun).
      rewrite Hrun in Hstep.
      destruct (samplePos s =? 9); simpl in Hstep; by injection Hstep as <- <-.
    + injection Hstep as <- <-.
      by destruct (TaskB_char_frame c s) as (_ & _ & _ & _ & _ & -> & ->).
Qed.

Lemma handoffs_ten_ticks (w : Z) :
  handoffs (replicate 9 Quiet ++ [Handoff w]) = [w] /\
  publishes (replicate 9 Quiet ++ [Handoff w]) = [].
Proof. by split. Qed.

(** X5. Task A may be late by up to one fill period. Ten readings into a
    fresh buffer slot, then any activity without Task A that has fewer than
    ten further timer interrupts (and any input to Task B), then Task A's
    loop body: the mean Task A publishes is still the mean of the first
    ten readings. *)
Theorem mean_survives_slack (readings : list Z) (es : list event) (s : State) :
  system_ok s = true ->
  samplePos s = 0 ->
  taskA_pc s = A_wait ->
  avgMutex s = None ->
  length readings = 10%nat ->
  forallb reading_ok readings = true ->
  no_RunA es = true ->
  (ticks es < 10)%nat ->
  exists s' ls,
    run (map Tick readings ++ es ++ [RunA; RunA; RunA]) s = Done (s', ls) /\
    publishes ls = [arithmetic_mean readings] /\
    globalAverage s' = arithmetic_mean readings.
Proof.
  intros Hok Hpos Hpc Hmutex Hlen Hreadings HA Hn.
  pose proof Hok as Hsys. apply system_ok_spec in Hsys as (Hbuf & _).
  pose proof (ten_ticks readings s Hbuf Hpos Hlen) as Hfill.
  destruct (run_ok (map Tick readings) s Hok) as (f & l1 & Hrun1 & Hokf & _).
  rewrite Hfill in Hrun1. injection Hrun1 as <- <-.
  destruct (run_ok es _ Hokf) as (s2 & l2 & Hrun2 & Hok2 & _).
  destruct (run_no_RunA_frame es _ s2 l2 Hokf HA Hrun2) as (Hpc2 & Hm2 & Hpub2).
  destruct (run_position es _ s2 l2 Hokf Hrun2) as (Hp2 & _).
  destruct (system_ok_ranges s2 Hok2) as (_ & Hrange2).
  destruct (system_ok_ranges s Hok) as (Hw & _).
  assert (Hquiet : handoffs l2 = []).
  { simpl in Hp2. destruct (handoffs l2); [done|]. simpl in Hp2. lia. }
  pose proof (run_last_handoff es _ s2 l2 Hokf HA Hrun2) as Hn2.
  rewrite Hquiet in Hn2. simpl in Hn2.
  pose proof (run_window es _ s2 l2 Hokf ltac:(simpl; lia) Hrun2) as Hrow.
  replace (1 - writeIndex (filled readings s)) with (writeIndex s) in Hrow
    by (simpl; lia).
  rewrite (filled_row readings s Hbuf) in Hrow.
  assert (Hsum : TaskA_sum (samples s2) (writeIndex s) = Done (sum_Z readings)).
  { rewrite (TaskA_sum_row _ _ readings); [|lia|done|done].
    by rewrite sum_int_no_overflow by (done || lia). }
  destruct (TaskA_loop_body_idle s2 (writeIndex s) (sum_Z readings))
    as (s3 & Hrun3 & Hga & _); [by rewrite Hpc2|by rewrite Hm2|done|done|].
  exists s3, ((replicate 9 Quiet ++ [Handoff (writeIndex s)])
                ++ l2 ++ [Quiet; Quiet; Publish (arithmetic_mean readings)]).
  split.
  { rewrite run_app, Hfill. unfold mbind at 1, outcome_bind at 1.
    rewrite run_app, Hrun2. unfold mbind, outcome_bind.
    change (arithmetic_mean readings) with (TaskA_average (sum_Z readings)).
    by rewrite Hrun3. }
  split; [|done].
  unfold publishes. rewrite !omap_app. fold (publishes l2). by rewrite Hpub2.
Qed.

(** Nine more readings and a line of input before Task A runs. *)
Lemma mean_survives_slack_witness :
  exists s' ls,
    run (map Tick [512; 513; 512; 512; 512; 512; 513; 512; 512; 513]
           ++ (map Tick (replicate 9 0) ++ [Key "a"; Key NL]%char)
           ++ [RunA; RunA; RunA]) init = Done (s', ls) /\
    publishes ls
      = [arithmetic_mean [512; 513; 512; 512; 512; 512; 513; 512; 512; 513]] /\
    globalAverage s'
      = arithmetic_mean [512; 513; 512; 512; 512; 512; 513; 512; 512; 513].
Proof.
  exact (mean_survives_slack
           [512; 513; 512; 512; 512; 512; 513; 512; 512; 513]
           (map Tick (replicate 9 0) ++ [Key "a"; Key NL]%char) init
           eq_refl eq_refl eq_refl eq_refl eq_refl eq_refl eq_refl
           ltac:(vm_compute; lia)).
Defined.

(** X6. Overrun. When two buffers fill up before Task A runs, Task A
    receives only the second handoff: its loop body publishes the mean of
    the last ten readings, the mean of the first ten is not published, and
    Task A then blocks with nothing pending. *)
Theorem overrun_publishes_latest (first second : list Z) (s : State) :
  buffer_ok s = true ->
  samplePos s = 0 ->
  taskA_pc s = A_wait ->
  avgMutex s = None ->
  length first = 10%nat ->
  length second = 10%nat ->
  forallb reading_ok second = true ->
  exists s' ls,
    run (map Tick first ++ map Tick second ++ [RunA; RunA; RunA]) s
      = Done (s', ls) /\
    handoffs ls = [writeIndex s; 1 - writeIndex s] /\
    publishes ls = [arithmetic_mean second] /\
    globalAverage s' = arithmetic_mean second /\
    TaskA_step s' = Blocked.
Proof.
  intros Hbuf Hpos Hpc Hmutex Hlen1 Hlen2 Hsecond.
  pose proof (ten_ticks first s Hbuf Hpos Hlen1) as Hfill1.
  pose proof (filled_ok first s Hbuf Hlen1) as Hbuf1.
  pose proof (ten_ticks second (filled first s) Hbuf1 eq_refl Hlen2) as Hfill2.
  assert (Hsum : TaskA_sum (samples (filled second (filled first s)))
                   (writeIndex (filled first s)) = Done (sum_Z second)).
  { apply buffer_ok_spec in Hbuf1 as (Hw1 & _).
    rewrite (TaskA_sum_row _ _ second); [|lia| |done].
    - by rewrite sum_int_no_overflow by (done || lia).
    - by apply filled_row, filled_ok. }
  destruct (TaskA_loop_body_idle (filled second (filled first s))
              (writeIndex (filled first s)) (sum_Z second))
    as (s3 & Hrun3 & Hga & _ & Hidle); [done..|].
  exists s3, ((replicate 9 Quiet ++ [Handoff (writeIndex s)])
                ++ (replicate 9 Quiet ++ [Handoff (writeIndex (filled first s))])
                ++ [Quiet; Quiet; Publish (arithmetic_mean second)]).
  split.
  { rewrite run_app, Hfill1. unfold mbind at 1, outcome_bind at 1.
    rewrite run_app, Hfill2. unfold mbind, outcome_bind.
    change (arithmetic_mean second) with (TaskA_average (sum_Z second)).
    by rewrite Hrun3. }
  by repeat split.
Qed.

Lemma overrun_publishes_latest_witness :
  exists s' ls,
    run (map Tick (replicate 10 100) ++ map Tick (replicate 10 200)
           ++ [RunA; RunA; RunA]) init = Done (s', ls) /\
    handoffs ls = [writeIndex init; 1 - writeIndex init] /\
    publishes ls = [arithmetic_mean (replicate 10 200)] /\
    globalAverage s' = arithmetic_mean (replicate 10 200) /\
    TaskA_step s' = Blocked.
Proof.
  exact (overrun_publishes_latest (replicate 10 100) (replicate 10 200) init
           eq_refl eq_refl eq_refl eq_refl eq_refl eq_refl eq_refl).
Defined.

(* ===================================================================== *)
(** * Further properties of the shared average *)

Lemma onTimer_frame (adcValue : Z) (s s' : State) (sent : option Z) :
  onTimer adcValue s = Done (s', sent) ->
  taskA_pc s' = taskA_pc s /\ avgMutex s' = avgMutex s /\
  Serial s' = Serial s /\ oled s' = oled s /\ inputBuffer s' = inputBuffer s /\
  (pending (taskA_notification s') = pending (taskA_notification s) /\ sent = None
   \/ pending (taskA_notification s') = true /\ sent <> None).
Proof.
  unfold onTimer. intros Hrun.
  destruct (array2_set (samples s) (writeIndex s) (samplePos s) adcValue)
    as [a'|]; simpl in Hrun; [|discriminate].
  destruct (10 <=? Int.wrap (samplePos s + 1)); simpl in Hrun;
    injection Hrun as <- <-; simpl; repeat split; auto.
Qed.

(** ** Every published mean answers a handoff *)

Lemma step_owed (e : event) (s s' : State) (l : label) :
  step e s = Done (s', l) ->
  (length (publishes [l]) + owed s' <= length (handoffs [l]) + owed s)%nat.
Proof.
  intros Hstep. destruct e as [adcValue|c|]; simpl in Hstep.
  - destruct (onTimer adcValue s) as [[s1 sent]| |] eqn:Hrun; simpl in Hstep;
      try discriminate.
    injection Hstep as <- <-.
    destruct (onTimer_frame adcValue s s1 sent Hrun)
      as (Hpc & _ & _ & _ & _ & [[Hpend ->] | [Hpend Hsent]]);
      unfold owed; rewrite Hpc, Hpend.
    + simpl. lia.
    + destruct sent as [slot|]; [|done]. simpl.
      destruct (pending (taskA_notification s)); lia.
  - injection Hstep as <- <-.
    destruct (TaskB_char_frame c s) as (_ & _ & _ & _ & Hn & Hpc & _).
    unfold owed. rewrite Hn, Hpc. simpl. lia.
  - unfold TaskA_step, xTaskNotifyWait in Hstep. unfold owed.
    destruct (taskA_pc s) as [|average|average] eqn:Hpc.
    + destruct (pending (taskA_notification s)) eqn:Hpend.
      * destruct (TaskA_sum (samples s) _); simpl in Hstep; try discriminate;
          injection Hstep as <- <-; simpl; rewrite ?Hpc, ?Hpend; simpl; lia.
      * injection Hstep as <- <-. rewrite Hpc, Hpend. simpl. lia.
    + destruct (xSemaphoreTake (avgMutex s) taskA); injection Hstep as <- <-;
        simpl; rewrite ?Hpc; simpl; lia.
    + injection Hstep as <- <-. simpl.
      destruct (pending (taskA_notification s)); simpl; lia.
Qed.

Lemma run_owed (es : list event) (s s' : State) (ls : list label) :
  run es s = Done (s', ls) ->
  (length (publishes ls) + owed s' <= length (handoffs ls) + owed s)%nat.
Proof.
  revert s ls. induction es as [|e es IH]; intros s ls Hrun; simpl in Hrun.
  - injection Hrun as <- <-. simpl. lia.
  - destruct (step e s) as [[s1 l]| |] eqn:Hstep; simpl in Hrun; try discriminate.
    destruct (run es s1) as [[s2 ls']| |] eqn:Hrest; simpl in Hrun; try discriminate.
    injection Hrun as <- <-.
    pose proof (IH s1 ls' Hrest). pose proof (step_owed e s s1 l Hstep).
    rewrite publishes_cons, handoffs_cons, !length_app. lia.
Qed.

(** X9. Task A publishes at most one mean per handoff: in every run from
    the initial state the number of stores into [globalAverage] never
    exceeds the number of buffers the ISR has handed off (it is smaller
    when handoffs were overwritten or are still to be served). *)
Theorem publishes_at_most_handoffs
        (es : list event) (s : State) (ls : list label) :
  run es init = Done (s, ls) ->
  (length (publishes ls) + owed s <= length (handoffs ls))%nat.
Proof.
  intros Hrun. pose proof (run_owed es init s ls Hrun) as Hle.
  change (owed init) with 0%nat in Hle. lia.
Qed.

(** Two buffers filled before Task A runs once: two handoffs, one mean. *)
Lemma publishes_at_most_handoffs_witness :
  (length (publishes (replicate 9 Quiet ++ [Handoff 0%Z] ++ replicate 9 Quiet
                        ++ [Handoff 1%Z; Quiet; Quiet; Publish (TaskA_average 70%Z)]))
   + owed (set_globalAverage (TaskA_average 70%Z)
             (set_taskA_notification (mkNotification 1%Z false)
                (filled (replicate 10 7%Z) (filled (replicate 10 7%Z) init))))
   <= length (handoffs (replicate 9 Quiet ++ [Handoff 0%Z] ++ replicate 9 Quiet
                          ++ [Handoff 1%Z; Quiet; Quiet; Publish (TaskA_average 70%Z)])))%nat.
Proof.
  exact (publishes_at_most_handoffs
           (map Tick (replicate 20 7%Z) ++ [RunA; RunA; RunA])
           (set_globalAverage (TaskA_average 70%Z)
              (set_taskA_notification (mkNotification 1%Z false)
                 (filled (replicate 10 7%Z) (filled (replicate 10 7%Z) init))))
           (replicate 9 Quiet ++ [Handoff 0%Z] ++ replicate 9 Quiet
              ++ [Handoff 1%Z; Quiet; Quiet; Publish (TaskA_average 70%Z)])
           ltac:(vm_compute; reflexivity)).
Defined.

(* ===================================================================== *)
(** * Further properties of the output *)

Lemma TaskB_char_echo (c : ascii) (s : State) :
  exists rest, Serial (TaskB_char c s) = Serial s +:+ String c rest.
Proof.
  unfold TaskB_char. destruct (Ascii.eqb c NL); [|by exists ""].
  destruct s as [a w p ga m n pc buf out d]. simpl.
  destruct (WString.equals (WString.trim buf) "avg"); [destruct m|]; simpl;
    eval_state; rewrite ?append_assoc; eexists; reflexivity.
Qed.

Lemma TaskB_char_oled (c : ascii) (s : State) :
  Ascii.eqb c NL = false -> oled (TaskB_char c s) = oled s.
Proof. intros Hc. unfold TaskB_char. by rewrite Hc. Qed.

Lemma TaskA_step_output (s s' : State) :
  TaskA_step s = Done s' -> Serial s' = Serial s /\ oled s' = oled s.
Proof.
  unfold TaskA_step. intros Hstep. destruct (taskA_pc s) as [|average|average].
  - destruct (xTaskNotifyWait 0 0 (taskA_notification s)) as [[bufferIndex n]|];
      [|discriminate].
    destruct (TaskA_sum (samples s) bufferIndex); simpl in Hstep;
      try discriminate. by injection Hstep as <-.
  - destruct (xSemaphoreTake (avgMutex s) taskA); [|discriminate].
    by injection Hstep as <-.
  - by injection Hstep as <-.
Qed.

Lemma step_output (e : event) (s s' : State) (l : label) :
  step e s = Done (s', l) ->
  (exists out, Serial s' = Serial s +:+ out) /\
  (is_Key e = false -> Serial s' = Serial s) /\
  (is_newline e = false -> oled s' = oled s).
Proof.
  intros Hstep. destruct e as [adcValue|c|]; simpl in Hstep.
  - destruct (onTimer adcValue s) as [[s1 sent]| |] eqn:Hrun; simpl in Hstep;
      try discriminate.
    injection Hstep as <- _.
    destruct (onTimer_frame adcValue s s1 sent Hrun) as (_ & _ & -> & -> & _).
    split; [|done]. exists "". by rewrite append_nil_r.
  - injection Hstep as <- _. split.
    { destruct (TaskB_char_echo c s) as [rest Hrest]. by eexists. }
    split; [done|]. apply TaskB_char_oled.
  - destruct (TaskA_step s) as [s1| |] eqn:HA; try discriminate;
      injection Hstep as <- _.
    + destruct (TaskA_step_output s s1 HA) as (-> & ->).
      split; [|done]. exists "". by rewrite append_nil_r.
    + split; [|done]. exists "". by rewrite append_nil_r.
Qed.

(** X10. Who writes where. Along any run, [Serial] is only ever appended
    to; a run in which Task B consumes no character leaves [Serial] as it
    was (the ISR and Task A print nothing), and a run in which Task B
    consumes no newline leaves the display as it was. *)
Theorem output_only_by_TaskB
        (es : list event) (s s' : State) (ls : list label) :
  run es s = Done (s', ls) ->
  (exists out, Serial s' = Serial s +:+ out) /\
  (forallb (fun e => negb (is_Key e)) es = true -> Serial s' = Serial s) /\
  (forallb (fun e => negb (is_newline e)) es = true -> oled s' = oled s).
Proof.
  revert s ls. induction es as [|e es IH]; intros s ls Hrun; simpl in Hrun.
  - injection Hrun as <- _. split; [|done]. exists "". by rewrite append_nil_r.
  - destruct (step e s) as [[s1 l]| |] eqn:Hstep; simpl in Hrun; try discriminate.
    destruct (run es s1) as [[s2 ls']| |] eqn:Hrest; simpl in Hrun; try discriminate.
    injection Hrun as <- _.
    destruct (IH s1 ls' Hrest) as ([out2 Hout2] & Hkeys & Hnl).
    destruct (step_output e s s1 l Hstep) as ([out1 Hout1] & Hkey1 & Hnl1).
    split; [|split].
    + exists (out1 +:+ out2). by rewrite Hout2, Hout1, append_assoc.
    + simpl. intros [He Hes]%andb_true_iff. apply negb_true_iff in He.
      by rewrite Hkeys, Hkey1.
    + simpl. intros [He Hes]%andb_true_iff. apply negb_true_iff in He.
      by rewrite Hnl, Hnl1.
Qed.

(** Readings, Task A's loop body and the characters [av]: the two
    characters are all that is printed, and the display is untouched. *)
Lemma output_only_by_TaskB_witness :
  (exists out,
      Serial (TaskB_input "av"
                (set_globalAverage (TaskA_average 70)
                   (set_taskA_notification (mkNotification 0 false)
                      (filled (replicate 10 7) init))))
      = String.append (Serial init) out) /\
  (forallb (fun e => negb (is_Key e))
           (map Tick (replicate 10 7) ++ [RunA; RunA; RunA; Key "a"; Key "v"]%char)
   = true ->
   Serial (TaskB_input "av"
             (set_globalAverage (TaskA_average 70)
                (set_taskA_notification (mkNotification 0 false)
                   (filled (replicate 10 7) init))))
   = Serial init) /\
  (forallb (fun e => negb (is_newline e))
           (map Tick (replicate 10 7) ++ [RunA; RunA; RunA; Key "a"; Key "v"]%char)
   = true ->
   oled (TaskB_input "av"
           (set_globalAverage (TaskA_average 70)
              (set_taskA_notification (mkNotification 0 false)
                 (filled (replicate 10 7) init))))
   = oled init).
Proof.
  exact (output_only_by_TaskB
           (map Tick (replicate 10 7) ++ [RunA; RunA; RunA; Key "a"; Key "v"]%char)
           init
           (TaskB_input "av"
              (set_globalAverage (TaskA_average 70)
                 (set_taskA_notification (mkNotification 0 false)
                    (filled (replicate 10 7) init))))
           (replicate 9 Quiet
              ++ [Handoff 0; Quiet; Quiet; Publish (TaskA_average 70); Quiet; Quiet])
           ltac:(vm_compute; reflexivity)).
Defined.

(* ===================================================================== *)
(** * Further properties of Task B's line handling *)

Lemma append_String (c : ascii) (a b : string) :
  String c a +:+ b = String c (a +:+ b).
Proof. reflexivity. Qed.

Lemma skip_space_all_space (pre x : string) :
  all_space pre = true ->
  WString.skip_space (pre +:+ x) = WString.skip_space x.
Proof.
  induction pre as [|c pre IH]; intros Hpre; [done|].
  simpl in Hpre. apply andb_true_iff in Hpre as [Hc Hpre].
  rewrite append_String. simpl. rewrite Hc. by apply IH.
Qed.

Lemma skip_space_nil (t : string) :
  WString.skip_space t = "" -> all_space t = true.
Proof.
  induction t as [|c t IH]; [done|]. simpl.
  destruct (WString.isspace c); [|discriminate]. exact IH.
Qed.

Lemma skip_space_app (t post : string) :
  WString.skip_space t <> "" ->
  WString.skip_space (t +:+ post) = WString.skip_space t +:+ post.
Proof.
  induction t as [|c t IH]; [done|]. rewrite append_String. simpl.
  destruct (WString.isspace c); [exact IH|done].
Qed.

Lemma rev_app_app (a b c : string) :
  String.rev_app (a +:+ b) c = String.rev_app b (String.rev_app a c).
Proof.
  revert c. induction a as [|x a IH]; intros c; [done|].
  rewrite append_String. simpl. apply IH.
Qed.

Lemma rev_app_acc (a c : string) :
  String.rev_app a c = String.rev_app a "" +:+ c.
Proof.
  revert c. induction a as [|x a IH]; intros c; [done|]. simpl.
  rewrite (IH (String x c)), (IH (String x "")). by rewrite append_assoc.
Qed.

Lemma all_space_rev_app (a b : string) :
  all_space (String.rev_app a b) = all_space a && all_space b.
Proof.
  revert b. induction a as [|x a IH]; intros b; [done|]. simpl.
  rewrite IH. simpl. by destruct (WString.isspace x), (all_space a).
Qed.

(** White space around a text does not survive [trim]. *)
Lemma trim_surrounded (pre text post : string) :
  all_space pre = true -> all_space post = true ->
  WString.trim (pre +:+ text +:+ post) = WString.trim text.
Proof.
  intros Hpre Hpost. unfold WString.trim. rewrite skip_space_all_space by done.
  destruct (String.eq_dec (WString.skip_space text) "") as [Hall|Hsome].
  - rewrite Hall. rewrite skip_space_all_space by (by apply skip_space_nil).
    rewrite <- (append_nil_r post), skip_space_all_space by done. done.
  - rewrite skip_space_app by done. unfold String.rev.
    rewrite rev_app_app.
    rewrite (rev_app_acc post (String.rev_app (WString.skip_space text) "")).
    rewrite skip_space_all_space; [done|].
    by rewrite all_space_rev_app, Hpost.
Qed.

(** X11. White space around a line never matters. However the line buffer
    came to hold [pre ++ text ++ post] with [pre] and [post] made of white
    space only (blanks, tabs, a carriage return before the newline), the
    newline is dispatched exactly as with [text] alone: the same command
    decision, the same output, the same display, the same state. *)
Theorem dispatch_ignores_blanks (pre text post : string) (s : State) :
  all_space pre = true ->
  all_space post = true ->
  TaskB_char NL (set_inputBuffer (pre +:+ text +:+ post) s)
  = TaskB_char NL (set_inputBuffer text s).
Proof.
  intros Hpre Hpost. destruct s as [a w p ga m n pc buf out d].
  unfold TaskB_char. simpl. rewrite (trim_surrounded pre text post Hpre Hpost).
  destruct (WString.equals (WString.trim text) "avg"); [destruct m|]; simpl;
    eval_state; reflexivity.
Qed.

(** The command between a blank and a carriage return. *)
Lemma dispatch_ignores_blanks_witness :
  TaskB_char NL
    (set_inputBuffer
       (String.append " " (String.append "avg" (String "013" ""))) init)
  = TaskB_char NL (set_inputBuffer "avg" init).
Proof.
  exact (dispatch_ignores_blanks " " "avg" (String "013" "") init eq_refl eq_refl).
Defined.

Lemma TaskB_char_NL_clears (s : State) : inputBuffer (TaskB_char NL s) = "".
Proof.
  unfold TaskB_char. destruct s as [a w p ga m n pc buf out d]. simpl.
  destruct (WString.equals (WString.trim buf) "avg"); [destruct m|]; reflexivity.
Qed.

(** X12. The line buffer holds exactly the characters consumed since the
    last newline: whatever was typed before and however the earlier lines
    were dispatched (echo, average, or refusal), after a newline followed
    by a newline-free [tail] the buffer is [tail]. *)
Theorem line_buffer_since_newline (text tail : string) (s : State) :
  no_NL tail = true ->
  inputBuffer (TaskB_input (text +:+ String NL tail) s) = tail.
Proof.
  intros Htail.
  replace (text +:+ String NL tail) with ((text +:+ String NL "") +:+ tail)
    by (by rewrite append_assoc).
  rewrite TaskB_input_app, (TaskB_input_line tail _ Htail).
  cbn [inputBuffer set_inputBuffer]. rewrite TaskB_input_app.
  change (TaskB_input (String NL "") (TaskB_input text s))
    with (TaskB_char NL (TaskB_input text s)).
  by rewrite TaskB_char_NL_clears.
Qed.

Lemma line_buffer_since_newline_witness :
  inputBuffer
    (TaskB_input
       (String.append "hello" (String NL "av")) held_by_taskA) = "av".
Proof.
  exact (line_buffer_since_newline "hello" "av" held_by_taskA eq_refl).
Defined.

(* ===================================================================== *)
(** * The shared average holds the latest published mean *)

Lemma step_publish (e : event) (s s' : State) (l : label) :
  step e s = Done (s', l) ->
  globalAverage s' = default (globalAverage s) (last (publishes [l])).
Proof.
  intros Hstep. destruct l as [slot|average|];
    try (by eapply step_globalAverage).
  destruct e as [adcValue|c|]; simpl in Hstep.
  - destruct (onTimer adcValue s) as [[s1 [slot|]]| |]; discriminate.
  - discriminate.
  - unfold TaskA_step in Hstep. destruct (taskA_pc s) as [|a|a].
    + destruct (xTaskNotifyWait 0 0 (taskA_notification s)) as [[bufferIndex n]|];
        [|discriminate].
      destruct (TaskA_sum (samples s) bufferIndex); discriminate.
    + destruct (xSemaphoreTake (avgMutex s) taskA); discriminate.
    + by injection Hstep as <- <-.
Qed.

(** X14. [globalAverage] always holds the most recent mean Task A has
    published: after any run it is the last published mean of the run, and
    the value it had before when the run published none. *)
Theorem globalAverage_is_last_publish
        (es : list event) (s s' : State) (ls : list label) :
  run es s = Done (s', ls) ->
  globalAverage s' = default (globalAverage s) (last (publishes ls)).
Proof.
  revert s ls. induction es as [|e es IH]; intros s ls Hrun; simpl in Hrun.
  - by injection Hrun as <- <-.
  - destruct (step e s) as [[s1 l]| |] eqn:Hstep; simpl in Hrun; try discriminate.
    destruct (run es s1) as [[s2 ls']| |] eqn:Hrest; simpl in Hrun; try discriminate.
    injection Hrun as <- <-.
    rewrite (IH s1 ls' Hrest), (step_publish e s s1 l Hstep).
    rewrite (publishes_cons l ls'), last_app.
    by destruct (last (publishes ls')).
Qed.

(** Two buffers, each averaged by Task A: the second mean is what stays. *)
Lemma globalAverage_is_last_publish_witness :
  globalAverage
    (set_globalAverage (TaskA_average 90)
       (set_taskA_notification (mkNotification 1 false)
          (filled (replicate 10 9) (filled (replicate 10 7) init))))
  = default (globalAverage init)
      (last (publishes
               (replicate 9 Quiet
                  ++ [Handoff 0; Quiet; Quiet; Publish (TaskA_average 70)]
                  ++ replicate 9 Quiet
                  ++ [Handoff 1; Quiet; Quiet; Publish (TaskA_average 90)]))).
Proof.
  exact (globalAverage_is_last_publish
           (map Tick (replicate 10 7) ++ [RunA; RunA; RunA]
              ++ map Tick (replicate 10 9) ++ [RunA; RunA; RunA])
           init
           (set_globalAverage (TaskA_average 90)
              (set_taskA_notification (mkNotification 1 false)
                 (filled (replicate 10 9) (filled (replicate 10 7) init))))
           (replicate 9 Quiet
              ++ [Handoff 0; Quiet; Quiet; Publish (TaskA_average 70)]
              ++ replicate 9 Quiet
              ++ [Handoff 1; Quiet; Quiet; Publish (TaskA_average 90)])
           ltac:(vm_compute; reflexivity)).
Defined.

(* ===================================================================== *)
(** * The mutex when the tasks interleave *)

Example reach_taskB_waiting :
  fine_run to_taskB_waiting fine_init = Done taskB_waiting.
Proof. vm_compute. reflexivity. Qed.

Example reach_taskB_holding :
  fine_run to_taskB_holding fine_init = Done taskB_holding /\
  fine_step FRunA taskB_holding = Done taskB_holding.
Proof. split; vm_compute; reflexivity. Qed.

Lemma TaskB_read_frame (c : ascii) (s : State) :
  globalAverage (TaskB_read c s).1 = globalAverage s /\
  taskA_pc (TaskB_read c s).1 = taskA_pc s /\
  avgMutex (TaskB_read c s).1 = avgMutex s /\
  ((TaskB_read c s).2 = B_read \/ (TaskB_read c s).2 = B_take).
Proof.
  unfold TaskB_read. destruct s as [a w p ga m n pc buf out d]. simpl.
  destruct (Ascii.eqb c NL); simpl; [|by auto].
  destruct (WString.equals (WString.trim buf) "avg"); simpl; by auto.
Qed.


Lemma fine_step_mutex_ok (e : fine_event) (t t' : System) :
  fine_step e t = Done t' -> fine_mutex_ok t = true -> fine_mutex_ok t' = true.
Proof.
  intros Hstep Hok. destruct t as [s pcB]. destruct e as [adcValue| |c| |];
    simpl in Hstep.
  - destruct (onTimer adcValue s) as [[s1 sent]| |] eqn:Hrun; simpl in Hstep;
      try discriminate.
    injection Hstep as <-.
    destruct (onTimer_frame adcValue s s1 sent Hrun) as (Hpc & Hm & _).
    unfold fine_mutex_ok in *. simpl in *. by rewrite Hpc, Hm.
  - unfold fine_mutex_ok in *. simpl in *. unfold TaskA_step in Hstep.
    destruct (taskA_pc s) as [|average|average] eqn:Hpc.
    + destruct (xTaskNotifyWait 0 0 (taskA_notification s)) as [[bufferIndex n]|].
      * destruct (TaskA_sum (samples s) bufferIndex); simpl in Hstep;
          try discriminate; injection Hstep as <-; simpl; by rewrite ?Hpc.
      * injection Hstep as <-. simpl. by rewrite Hpc.
    + destruct (avgMutex s) as [[|]|] eqn:Hm; simpl in Hstep;
        injection Hstep as <-; simpl; rewrite ?Hpc, ?Hm; try done.
    + injection Hstep as <-. simpl.
      by destruct (avgMutex s) as [[|]|], pcB.
  - destruct pcB; try (by injection Hstep as <-).
    destruct (TaskB_read c s) as [s1 pc1] eqn:Hread. injection Hstep as <-.
    destruct (TaskB_read_frame c s) as (_ & Hpc & Hm & Hpc1).
    rewrite Hread in Hpc, Hm, Hpc1. simpl in *.
    unfold fine_mutex_ok in *. simpl in *. rewrite Hpc, Hm.
    destruct Hpc1 as [-> | ->]; by destruct (avgMutex s) as [[|]|], (taskA_pc s).
  - unfold TaskB_step in Hstep. unfold fine_mutex_ok in *. simpl in *.
    destruct pcB, (avgMutex s) as [[|]|] eqn:Hm, (taskA_pc s) eqn:HpcA;
      simpl in *; try discriminate Hok; injection Hstep as <-; simpl;
      by rewrite ?Hm, ?HpcA.
  - unfold TaskB_timeout in Hstep. unfold fine_mutex_ok in *. simpl in *.
    destruct pcB, (avgMutex s) as [[|]|] eqn:Hm, (taskA_pc s) eqn:HpcA;
      simpl in *; try discriminate Hok; injection Hstep as <-; simpl;
      by rewrite ?Hm, ?HpcA.
Qed.

Lemma fine_run_mutex_ok (es : list fine_event) (t t' : System) :
  fine_run es t = Done t' -> fine_mutex_ok t = true -> fine_mutex_ok t' = true.
Proof.
  revert t. induction es as [|e es IH]; intros t Hrun Hok; simpl in Hrun.
  - by injection Hrun as <-.
  - destruct (fine_step e t) as [t1| |] eqn:Hstep; simpl in Hrun; try discriminate.
    eapply IH; [done|]. by eapply fine_step_mutex_ok.
Qed.

Lemma fine_step_globalAverage (e : fine_event) (t t' : System) :
  fine_step e t = Done t' ->
  (forall average, taskA_pc (sys t) <> A_store average) ->
  globalAverage (sys t') = globalAverage (sys t).
Proof.
  intros Hstep HA. destruct t as [s pcB]. simpl in HA.
  destruct e as [adcValue| |c| |]; simpl in Hstep.
  - destruct (onTimer adcValue s) as [[s1 sent]| |] eqn:Hrun; simpl in Hstep;
      try discriminate.
    injection Hstep as <-. simpl.
    apply (step_globalAverage (Tick adcValue) s s1
             (match sent with Some slot => Handoff slot | None => Quiet end)).
    + simpl. by rewrite Hrun.
    + by destruct sent.
  - destruct (TaskA_step s) as [s1| |] eqn:HstepA; try discriminate;
      injection Hstep as <-; [|done]. simpl.
    apply (step_globalAverage RunA s s1
             (match taskA_pc s with A_store a => Publish a | _ => Quiet end)).
    + simpl. by rewrite HstepA.
    + destruct (taskA_pc s) as [|a|a]; try done. by destruct (HA a).
  - destruct pcB; try (by injection Hstep as <-).
    destruct (TaskB_read c s) as [s1 pc1] eqn:Hread. injection Hstep as <-.
    destruct (TaskB_read_frame c s) as (Hga & _). by rewrite Hread in Hga.
  - unfold TaskB_step in Hstep. simpl in Hstep.
    destruct pcB; try (by injection Hstep as <-).
    destruct (xSemaphoreTake (avgMutex s) taskB); by injection Hstep as <-.
  - unfold TaskB_timeout in Hstep. simpl in Hstep.
    destruct pcB; try (by injection Hstep as <-).
    destruct (xSemaphoreTake (avgMutex s) taskB); by injection Hstep as <-.
Qed.

(** X7. The mutex discipline, with the tasks switched at any access to what
    they share. In every run from the initial state [avgMutex] is held by
    Task A exactly between its take and its give and by Task B exactly
    between its take and its give (so never by both); and while Task B
    holds it no step changes [globalAverage], the value Task B copies. *)
Theorem mutex_discipline (es : list fine_event) (t : System) :
  fine_run es fine_init = Done t ->
  (avgMutex (sys t) = Some taskA <-> exists average, taskA_pc (sys t) = A_store average) /\
  (avgMutex (sys t) = Some taskB <->
   taskB_pc t = B_copy \/ exists avgCopy, taskB_pc t = B_give avgCopy) /\
  (avgMutex (sys t) = Some taskB ->
   forall e t', fine_step e t = Done t' ->
                globalAverage (sys t') = globalAverage (sys t)).
Proof.
  intros Hrun. pose proof (fine_run_mutex_ok es fine_init t Hrun eq_refl) as Hok.
  assert (HB : avgMutex (sys t) = Some taskB ->
               forall average, taskA_pc (sys t) <> A_store average).
  { intros Hm average HA. unfold fine_mutex_ok in Hok. rewrite Hm, HA in Hok.
    discriminate Hok. }
  split; [|split].
  - unfold fine_mutex_ok in Hok.
    destruct (avgMutex (sys t)) as [[|]|], (taskA_pc (sys t)), (taskB_pc t);
      try discriminate Hok; split; try done; try (by intros [? ?]); eauto.
  - unfold fine_mutex_ok in Hok.
    destruct (avgMutex (sys t)) as [[|]|], (taskA_pc (sys t)), (taskB_pc t);
      try discriminate Hok; split; try done;
      try (by intros [?|[? ?]]); eauto.
  - intros Hm e t' Hstep. eapply fine_step_globalAverage; [done|]. by apply HB.
Qed.

(** Task B holding the mutex while Task A waits at its take. *)
Lemma mutex_discipline_witness :
  (avgMutex (sys taskB_holding) = Some taskA
   <-> exists average, taskA_pc (sys taskB_holding) = A_store average) /\
  (avgMutex (sys taskB_holding) = Some taskB <->
   taskB_pc taskB_holding = B_copy
   \/ exists avgCopy, taskB_pc taskB_holding = B_give avgCopy) /\
  (avgMutex (sys taskB_holding) = Some taskB ->
   forall e t', fine_step e taskB_holding = Done t' ->
                globalAverage (sys t') = globalAverage (sys taskB_holding)).
Proof.
  exact (mutex_discipline to_taskB_holding taskB_holding
           ltac:(vm_compute; reflexivity)).
Defined.

(** X8. When Task B's wait for the mutex runs out, in any run from the
    initial state, Task A is between its take and its give; Task B then
    prints the error line and goes back to reading, and changes neither the
    display nor [globalAverage]. (The converse fails: Task B, finding the
    mutex held, waits, and prints the average once Task A has given the
    mutex back in time.) *)
Theorem refusal_only_during_store (es : list fine_event) (t t' : System) :
  fine_run es fine_init = Done t ->
  TaskB_timeout t = Done t' ->
  (exists average, taskA_pc (sys t) = A_store average) /\
  Serial (sys t') = Serial (sys t) +:+ Print.println avg_error /\
  oled (sys t') = oled (sys t) /\
  globalAverage (sys t') = globalAverage (sys t) /\
  taskB_pc t' = B_read.
Proof.
  intros Hrun Hout. pose proof (fine_run_mutex_ok es fine_init t Hrun eq_refl) as Hok.
  unfold TaskB_timeout in Hout. unfold fine_mutex_ok in Hok.
  destruct (taskB_pc t); try discriminate Hout.
  destruct (avgMutex (sys t)) as [[|]|]; try discriminate Hout;
    destruct (taskA_pc (sys t)) as [|a|a]; try discriminate Hok.
  injection Hout as <-. split; [by exists a|]. by repeat split.
Qed.

Lemma refusal_only_during_store_witness :
  (exists average, taskA_pc (sys taskB_waiting) = A_store average) /\
  Serial (set_inputBuffer "" (Serial_println avg_error (sys taskB_waiting)))
    = String.append (Serial (sys taskB_waiting)) (Print.println avg_error) /\
  oled (set_inputBuffer "" (Serial_println avg_error (sys taskB_waiting)))
    = oled (sys taskB_waiting) /\
  globalAverage (set_inputBuffer "" (Serial_println avg_error (sys taskB_waiting)))
    = globalAverage (sys taskB_waiting) /\
  B_read = B_read.
Proof.
  exact (refusal_only_during_store to_taskB_waiting taskB_waiting
           (mkSystem
              (set_inputBuffer "" (Serial_println avg_error (sys taskB_waiting)))
              B_read)
           ltac:(vm_compute; reflexivity) eq_refl).
Defined.

(** Task B finds the mutex held, waits, and is served after Task A's give:
    the command is answered with the average Task A has just stored. *)
Example served_after_wait :
  exists t,
    fine_run (to_taskB_waiting ++ [FRunB; FRunA; FRunB; FRunB; FRunB; FRunB])
             fine_init = Done t /\
    taskB_pc t = B_read /\
    globalAverage (sys t) = TaskA_average 70 /\
    Serial (sys t)
      = String.append "avg" (String NL (String.append "Average: 7.00" Print.CRLF)) /\
    OLED.screen (oled (sys t)) = String.append "Average: 7.00" Print.CRLF.
Proof. eexists. split; [vm_compute; reflexivity|]. by vm_compute. Qed.
